(** * app-peaq: EVM transaction parsing, display indexing, recovery byte and
      signing clean-up

    A shallow embedding of [app/src/evm/parser_impl_evm.c] and of
    [crypto_sign] from [app/src/crypto.c].

    Conventions of the embedding.
    - Unsigned C integers are [Z] values; every wrap-around ([uint8_t],
      [uint32_t]) is written out with [mod].
    - A [const uint8_t *] is modelled by the bytes that can be read through
      it: the list of bytes from the pointed address onwards.  Pointer
      arithmetic [p + n] is [skipn n], [p[i]] is [nth i], and the null
      pointer views no byte at all.  A read past the last byte of a view,
      which the source never performs on an item its reader delivered, is
      given the value 0 so that every function is total.
    - [CHECK_ERROR(call)] is the bind of an error monad; functions that
      advance a [parser_context_t] return the advanced context next to their
      result. *)

From Stdlib Require Import ZArith List String Bool Lia.
From Stdlib.Strings Require Import Byte.
Import ListNotations.

Local Open Scope Z_scope.

(** ** Error codes *)

(** The codes named in [parser_impl_evm.c], and the three codes of the RLP
    reader, whose names follow the specification. *)
Inductive parser_error_t : Set :=
| parser_ok
| parser_unexpected_error
| parser_unexpected_end
| parser_invalid_length
| parser_non_canonical
| parser_unexpected_value
| parser_unexpected_characters
| parser_unsupported_tx
| parser_invalid_chain_id
| parser_invalid_rs_values
| parser_display_page_out_of_range.

(** The outcome of a call that either fails with a code or delivers a value
    through its out-parameters. *)
Inductive result (A : Type) : Type :=
| Ok (a : A)
| Err (e : parser_error_t).

Arguments Ok {A} a.
Arguments Err {A} e.

Definition bind {A B : Type} (c : result A) (k : A -> result B) : result B :=
  match c with
  | Ok a => k a
  | Err e => Err e
  end.

Notation "'CHECK_ERROR' x <- c ; k" :=
  (bind c (fun x => k))
    (at level 61, x name, c at next level, right associativity).

Notation "'CHECK_ERROR' ' p <- c ; k" :=
  (bind c (fun x => match x with p => k end))
    (at level 61, p pattern, c at next level, right associativity).

(** ** Bytes and pointers *)

Definition u8 (b : byte) : Z := Z.of_N (Byte.to_N b).

Definition ptr_t : Set := list byte.

Definition NULL : ptr_t := [].

Definition ptr_add (p : ptr_t) (n : Z) : ptr_t := skipn (Z.to_nat n) p.

Definition deref (p : ptr_t) (i : Z) : Z := u8 (nth (Z.to_nat i) p x00).

(** Big-endian value of a byte string. *)
Definition be_value (bs : list byte) : Z :=
  fold_left (fun acc b => acc * 256 + u8 b) bs 0.

(** ** RLP items and the parser context *)

Inductive rlp_kind_e : Set :=
| RLP_KIND_BYTE
| RLP_KIND_STRING
| RLP_KIND_LIST.

Definition rlp_kind_eqb (a b : rlp_kind_e) : bool :=
  match a, b with
  | RLP_KIND_BYTE, RLP_KIND_BYTE
  | RLP_KIND_STRING, RLP_KIND_STRING
  | RLP_KIND_LIST, RLP_KIND_LIST => true
  | _, _ => false
  end.

Record rlp_t : Set := mk_rlp {
  kind : rlp_kind_e;
  ptr : ptr_t;
  rlpLen : Z
}.

Record parser_context_t : Set := mk_ctx {
  buffer : ptr_t;
  bufferLen : Z;
  offset : Z
}.

Definition advance (ctx : parser_context_t) (n : Z) : parser_context_t :=
  mk_ctx (buffer ctx) (bufferLen ctx) (offset ctx + n).

(** Modelled from the spec: [rlp_read] of [rlp.c], which is not part of the
    sources at hand.  Section 4.1 gives the table of prefixes: a byte below
    0x80 is its own payload; 0x80..0xB7 and 0xC0..0xF7 carry the payload
    length in the prefix; 0xB8..0xBF and 0xF8..0xFF are followed by a
    big-endian length of [prefix - 0xB7] (resp. [prefix - 0xF7]) bytes.  The
    reader fails with [unexpected_end] when a header or payload would overrun
    the buffer, with [invalid_length] when the length of the length exceeds
    8, and with [non_canonical] when a long-form length starts with a zero
    byte.  The source only tests [RLP_KIND_BYTE] and [RLP_KIND_LIST], so the
    short and long forms share one kind each. *)
Definition rlp_read_long (ctx : parser_context_t) (k : rlp_kind_e) (L : Z)
  : result (rlp_t * parser_context_t) :=
  if 8 <? L then Err parser_invalid_length
  else if bufferLen ctx <? offset ctx + 1 + L then Err parser_unexpected_end
  else if deref (buffer ctx) (offset ctx + 1) =? 0 then Err parser_non_canonical
  else
    let len :=
      be_value (firstn (Z.to_nat L) (ptr_add (buffer ctx) (offset ctx + 1))) in
    if bufferLen ctx <? offset ctx + 1 + L + len then Err parser_unexpected_end
    else Ok (mk_rlp k (ptr_add (buffer ctx) (offset ctx + 1 + L)) len,
             advance ctx (1 + L + len)).

Definition rlp_read_short (ctx : parser_context_t) (k : rlp_kind_e) (len : Z)
  : result (rlp_t * parser_context_t) :=
  if bufferLen ctx <? offset ctx + 1 + len then Err parser_unexpected_end
  else Ok (mk_rlp k (ptr_add (buffer ctx) (offset ctx + 1)) len,
           advance ctx (1 + len)).

Definition rlp_read (ctx : parser_context_t)
  : result (rlp_t * parser_context_t) :=
  if bufferLen ctx <=? offset ctx then Err parser_unexpected_end
  else
    let B := deref (buffer ctx) (offset ctx) in
    if B <? 128 then
      Ok (mk_rlp RLP_KIND_BYTE (ptr_add (buffer ctx) (offset ctx)) 1,
          advance ctx 1)
    else if B <=? 183 then rlp_read_short ctx RLP_KIND_STRING (B - 128)
    else if B <=? 191 then rlp_read_long ctx RLP_KIND_STRING (B - 183)
    else if B <=? 247 then rlp_read_short ctx RLP_KIND_LIST (B - 192)
    else rlp_read_long ctx RLP_KIND_LIST (B - 247).

(** Modelled from the spec: [be_bytes_to_u64] of [evm_utils.c], which is not
    part of the sources at hand.  Section 4.3: the payload is read as a
    big-endian unsigned 64-bit integer, and a length above 8 is an
    [unexpected_error]. *)
Definition be_bytes_to_u64 (bytes : ptr_t) (len : Z) : result Z :=
  if 8 <? len then Err parser_unexpected_error
  else Ok (be_value (firstn (Z.to_nat len) bytes)).

(** ** The chain-ID reader *)

Definition SUPPORTED_NETWORKS_EVM_LEN : Z := 3.
Definition PEAQ_MAINNET_CHAINID : Z := 3338.
Definition PEAQ_TESTNET_CHAINID : Z := 9990.
Definition PEAQ_CANARY_CHAINID : Z := 2241.

Definition supported_networks_evm : list Z :=
  [PEAQ_MAINNET_CHAINID; PEAQ_TESTNET_CHAINID; PEAQ_CANARY_CHAINID].

(** The loop [for (i = 0; i < SUPPORTED_NETWORKS_EVM_LEN; i++)] over the
    table, returning at the first match. *)
Fixpoint chain_id_allowed_from (networks : list Z) (id : Z) : bool :=
  match networks with
  | [] => false
  | n :: rest => if id =? n then true else chain_id_allowed_from rest id
  end.

Definition chain_id_allowed (id : Z) : bool :=
  chain_id_allowed_from
    (firstn (Z.to_nat SUPPORTED_NETWORKS_EVM_LEN) supported_networks_evm) id.

Definition readChainID (ctx : parser_context_t)
  : result (rlp_t * parser_context_t) :=
  CHECK_ERROR '(chainId, ctx1) <- rlp_read ctx;
  CHECK_ERROR tmpChainId <-
    (if 1 <? rlpLen chainId then
       be_bytes_to_u64 (ptr chainId) (rlpLen chainId)
     else if rlp_kind_eqb (kind chainId) RLP_KIND_BYTE then
       Ok (deref (ptr chainId) 0)
     else Err parser_unexpected_error);
  if chain_id_allowed tmpChainId then Ok (chainId, ctx1)
  else Err parser_invalid_chain_id.

(** ** The transaction record *)

(** [eth_tx_type_e]: the enumerators carry the value of the marker byte,
    as the cast [(eth_tx_type_e)marker] and the test [marker < legacy] in
    [readTxnType] require; a zeroed record holds none of them. *)
Definition eip2930 : Z := 1.
Definition eip1559 : Z := 2.
Definition legacy : Z := 192.

Record eth_base_t : Set := mk_base {
  nonce : rlp_t;
  gasPrice : rlp_t;
  gasLimit : rlp_t;
  to : rlp_t;
  value : rlp_t;
  data : rlp_t;
  max_priority_fee_per_gas : rlp_t;
  max_fee_per_gas : rlp_t;
  access_list : rlp_t
}.

Record eth_tx_t : Set := mk_tx {
  tx_type : Z;
  chainId : rlp_t;
  tx : eth_base_t;
  is_erc20_transfer : bool
}.

(** Field assignments [tx_obj->f = v]. *)
Definition on_tx (f : eth_base_t -> eth_base_t) (o : eth_tx_t) : eth_tx_t :=
  mk_tx (tx_type o) (chainId o) (f (tx o)) (is_erc20_transfer o).

Definition set_tx_type (o : eth_tx_t) (v : Z) : eth_tx_t :=
  mk_tx v (chainId o) (tx o) (is_erc20_transfer o).

Definition set_chainId (o : eth_tx_t) (v : rlp_t) : eth_tx_t :=
  mk_tx (tx_type o) v (tx o) (is_erc20_transfer o).

Definition set_is_erc20_transfer (o : eth_tx_t) (v : bool) : eth_tx_t :=
  mk_tx (tx_type o) (chainId o) (tx o) v.

Definition set_nonce (o : eth_tx_t) (v : rlp_t) : eth_tx_t :=
  on_tx (fun b => mk_base v (gasPrice b) (gasLimit b) (to b) (value b)
    (data b) (max_priority_fee_per_gas b) (max_fee_per_gas b)
    (access_list b)) o.

Definition set_gasPrice (o : eth_tx_t) (v : rlp_t) : eth_tx_t :=
  on_tx (fun b => mk_base (nonce b) v (gasLimit b) (to b) (value b)
    (data b) (max_priority_fee_per_gas b) (max_fee_per_gas b)
    (access_list b)) o.

Definition set_gasLimit (o : eth_tx_t) (v : rlp_t) : eth_tx_t :=
  on_tx (fun b => mk_base (nonce b) (gasPrice b) v (to b) (value b)
    (data b) (max_priority_fee_per_gas b) (max_fee_per_gas b)
    (access_list b)) o.

Definition set_to (o : eth_tx_t) (v : rlp_t) : eth_tx_t :=
  on_tx (fun b => mk_base (nonce b) (gasPrice b) (gasLimit b) v (value b)
    (data b) (max_priority_fee_per_gas b) (max_fee_per_gas b)
    (access_list b)) o.

Definition set_value (o : eth_tx_t) (v : rlp_t) : eth_tx_t :=
  on_tx (fun b => mk_base (nonce b) (gasPrice b) (gasLimit b) (to b) v
    (data b) (max_priority_fee_per_gas b) (max_fee_per_gas b)
    (access_list b)) o.

Definition set_data (o : eth_tx_t) (v : rlp_t) : eth_tx_t :=
  on_tx (fun b => mk_base (nonce b) (gasPrice b) (gasLimit b) (to b)
    (value b) v (max_priority_fee_per_gas b) (max_fee_per_gas b)
    (access_list b)) o.

Definition set_max_priority_fee_per_gas (o : eth_tx_t) (v : rlp_t)
  : eth_tx_t :=
  on_tx (fun b => mk_base (nonce b) (gasPrice b) (gasLimit b) (to b)
    (value b) (data b) v (max_fee_per_gas b) (access_list b)) o.

Definition set_max_fee_per_gas (o : eth_tx_t) (v : rlp_t) : eth_tx_t :=
  on_tx (fun b => mk_base (nonce b) (gasPrice b) (gasLimit b) (to b)
    (value b) (data b) (max_priority_fee_per_gas b) v (access_list b)) o.

Definition set_access_list (o : eth_tx_t) (v : rlp_t) : eth_tx_t :=
  on_tx (fun b => mk_base (nonce b) (gasPrice b) (gasLimit b) (to b)
    (value b) (data b) (max_priority_fee_per_gas b) (max_fee_per_gas b) v) o.

(** [MEMZERO(&eth_tx_obj, sizeof(eth_tx_obj))]: every view is a null
    pointer of kind 0 and length 0, the type is 0 and the flag is false.
    The first enumerator of the kind stands for the zero kind. *)
Definition rlp_zero : rlp_t := mk_rlp RLP_KIND_BYTE NULL 0.

Definition eth_tx_zero : eth_tx_t :=
  mk_tx 0 rlp_zero
    (mk_base rlp_zero rlp_zero rlp_zero rlp_zero rlp_zero rlp_zero rlp_zero
       rlp_zero rlp_zero)
    false.

(** ** The three bodies *)

Definition rs_empty_or_zero (sig_r sig_s : rlp_t) : bool :=
  ((rlpLen sig_r =? 0) && (rlpLen sig_s =? 0))
  || (((rlpLen sig_r =? 1) && (rlpLen sig_s =? 1))
      && (Z.lor (deref (ptr sig_r) 0) (deref (ptr sig_s) 0) =? 0)).

Definition parse_legacy_tx (ctx : parser_context_t) (tx_obj : eth_tx_t)
  : result (eth_tx_t * parser_context_t) :=
  CHECK_ERROR '(v, ctx) <- rlp_read ctx;
  let tx_obj := set_nonce tx_obj v in
  CHECK_ERROR '(v, ctx) <- rlp_read ctx;
  let tx_obj := set_gasPrice tx_obj v in
  CHECK_ERROR '(v, ctx) <- rlp_read ctx;
  let tx_obj := set_gasLimit tx_obj v in
  CHECK_ERROR '(v, ctx) <- rlp_read ctx;
  let tx_obj := set_to tx_obj v in
  CHECK_ERROR '(v, ctx) <- rlp_read ctx;
  let tx_obj := set_value tx_obj v in
  CHECK_ERROR '(v, ctx) <- rlp_read ctx;
  let tx_obj := set_data tx_obj v in
  if offset ctx =? bufferLen ctx then
    Ok (set_chainId tx_obj (mk_rlp RLP_KIND_BYTE NULL 0), ctx)
  else
    CHECK_ERROR '(v, ctx) <- readChainID ctx;
    let tx_obj := set_chainId tx_obj v in
    CHECK_ERROR '(sig_r, ctx) <- rlp_read ctx;
    CHECK_ERROR '(sig_s, ctx) <- rlp_read ctx;
    if rs_empty_or_zero sig_r sig_s then Ok (tx_obj, ctx)
    else Err parser_invalid_rs_values.

Definition parse_2930 (ctx : parser_context_t) (tx_obj : eth_tx_t)
  : result (eth_tx_t * parser_context_t) :=
  CHECK_ERROR '(v, ctx) <- readChainID ctx;
  let tx_obj := set_chainId tx_obj v in
  CHECK_ERROR '(v, ctx) <- rlp_read ctx;
  let tx_obj := set_nonce tx_obj v in
  CHECK_ERROR '(v, ctx) <- rlp_read ctx;
  let tx_obj := set_gasPrice tx_obj v in
  CHECK_ERROR '(v, ctx) <- rlp_read ctx;
  let tx_obj := set_gasLimit tx_obj v in
  CHECK_ERROR '(v, ctx) <- rlp_read ctx;
  let tx_obj := set_to tx_obj v in
  CHECK_ERROR '(v, ctx) <- rlp_read ctx;
  let tx_obj := set_value tx_obj v in
  CHECK_ERROR '(v, ctx) <- rlp_read ctx;
  let tx_obj := set_data tx_obj v in
  CHECK_ERROR '(v, ctx) <- rlp_read ctx;
  let tx_obj := set_access_list tx_obj v in
  if offset ctx <? bufferLen ctx then Err parser_unexpected_characters
  else Ok (tx_obj, ctx).

Definition parse_1559 (ctx : parser_context_t) (tx_obj : eth_tx_t)
  : result (eth_tx_t * parser_context_t) :=
  CHECK_ERROR '(v, ctx) <- readChainID ctx;
  let tx_obj := set_chainId tx_obj v in
  CHECK_ERROR '(v, ctx) <- rlp_read ctx;
  let tx_obj := set_nonce tx_obj v in
  CHECK_ERROR '(v, ctx) <- rlp_read ctx;
  let tx_obj := set_max_priority_fee_per_gas tx_obj v in
  CHECK_ERROR '(v, ctx) <- rlp_read ctx;
  let tx_obj := set_max_fee_per_gas tx_obj v in
  CHECK_ERROR '(v, ctx) <- rlp_read ctx;
  let tx_obj := set_gasLimit tx_obj v in
  CHECK_ERROR '(v, ctx) <- rlp_read ctx;
  let tx_obj := set_to tx_obj v in
  CHECK_ERROR '(v, ctx) <- rlp_read ctx;
  let tx_obj := set_value tx_obj v in
  CHECK_ERROR '(v, ctx) <- rlp_read ctx;
  let tx_obj := set_data tx_obj v in
  CHECK_ERROR '(v, ctx) <- rlp_read ctx;
  let tx_obj := set_access_list tx_obj v in
  if offset ctx <? bufferLen ctx then Err parser_unexpected_characters
  else Ok (tx_obj, ctx).

(** ** Type tag and entry point *)

Definition readTxnType (ctx : parser_context_t)
  : result (Z * parser_context_t) :=
  if (bufferLen ctx =? 0) || negb (offset ctx =? 0) then
    Err parser_unexpected_error
  else
    let marker := deref (buffer ctx) (offset ctx) in
    if (marker =? eip2930) || (marker =? eip1559) then
      Ok (marker, advance ctx 1)
    else if marker <? legacy then Err parser_unsupported_tx
    else Ok (legacy, ctx).

(** [_readEth] is called on the process-wide record, so the record it fills
    is the one it has just zeroed.  It returns the record and the caller's
    context as the outer read left it. *)
Definition _readEth (ctx : parser_context_t)
  : result (eth_tx_t * parser_context_t) :=
  let tx_obj := eth_tx_zero in
  CHECK_ERROR '(type, ctx) <- readTxnType ctx;
  let tx_obj := set_tx_type tx_obj type in
  CHECK_ERROR '(list, ctx) <- rlp_read ctx;
  if negb (rlp_kind_eqb (kind list) RLP_KIND_LIST) then
    Err parser_unexpected_value
  else if negb (offset ctx =? bufferLen ctx) then
    Err parser_unexpected_characters
  else
    let txCtx := mk_ctx (ptr list) (rlpLen list) 0 in
    if tx_type tx_obj =? eip1559 then
      CHECK_ERROR '(tx_obj, _) <- parse_1559 txCtx tx_obj; Ok (tx_obj, ctx)
    else if tx_type tx_obj =? eip2930 then
      CHECK_ERROR '(tx_obj, _) <- parse_2930 txCtx tx_obj; Ok (tx_obj, ctx)
    else if tx_type tx_obj =? legacy then
      CHECK_ERROR '(tx_obj, _) <- parse_legacy_tx txCtx tx_obj; Ok (tx_obj, ctx)
    else Err parser_unexpected_error.

(** [decode]: the entry point applied to a whole input buffer. *)
Definition decode (buf : list byte) : result eth_tx_t :=
  CHECK_ERROR '(tx_obj, _) <-
    _readEth (mk_ctx buf (Z.of_nat (List.length buf)) 0);
  Ok tx_obj.

(** ** Policy validator *)

Definition ETH_ADDRESS_LEN : Z := 20.

Definition all_zero (bs : list byte) : bool :=
  forallb (fun b => u8 b =? 0) bs.

(** Modelled from the spec: [validateERC20] of [evm_erc20.c], which is not
    part of the sources at hand.  Section 4.4: a record is an ERC-20
    transfer iff its value is empty or all zero, its recipient has exactly
    20 bytes, its data has exactly 68 bytes, starts with the selector
    a9059cbb and continues with 12 zero bytes.  Section 3: the flag
    [is_erc20_transfer] of the record is derived by this validator. *)
Definition is_erc20_shape (tx_obj : eth_tx_t) : bool :=
  let t := tx tx_obj in
  ((rlpLen (value t) =? 0)
   || all_zero (firstn (Z.to_nat (rlpLen (value t))) (ptr (value t))))
  && (rlpLen (to t) =? ETH_ADDRESS_LEN)
  && (rlpLen (data t) =? 68)
  && (deref (ptr (data t)) 0 =? 169) && (deref (ptr (data t)) 1 =? 5)
  && (deref (ptr (data t)) 2 =? 156) && (deref (ptr (data t)) 3 =? 187)
  && all_zero (firstn 12 (ptr_add (ptr (data t)) 4)).

Definition validateERC20 (tx_obj : eth_tx_t) : bool * eth_tx_t :=
  let r := is_erc20_shape tx_obj in
  (r, set_is_erc20_transfer tx_obj r).

(** [expert] is the answer of [app_mode_expert()]. *)
Definition _validateTxEth (expert : bool) (eth_tx_obj : eth_tx_t)
  : parser_error_t * eth_tx_t :=
  let '(r, eth_tx_obj) := validateERC20 eth_tx_obj in
  if negb r && negb expert then (parser_unsupported_tx, eth_tx_obj)
  else (parser_ok, eth_tx_obj).

(** ** Display *)

(** The value renderers of [evm_utils.c] are collaborators: only their
    status reaches the result of [_getItemEth].  Each receives the view it
    prints, the size of the value buffer and the page index. *)
Class Renderers : Type := {
  printEVMAddress : rlp_t -> Z -> Z -> parser_error_t;
  printRLPNumber : rlp_t -> Z -> Z -> parser_error_t;
  printERC20Value : eth_tx_t -> Z -> Z -> parser_error_t
}.

(** The display functions are modelled by their status and by the string
    that [outKey] holds on return; [outVal] and [pageCount] are not tracked.
    The out-pointers are non-null and [outKeyLen] has room for the longest
    key, so [snprintf] copies every key whole.  [MEMZERO(outKey, outKeyLen)]
    leaves the empty string. *)
Definition uint8 (n : Z) : Z := n mod 256.

Section Display.

Context {R : Renderers}.

Variable eth_tx_obj : eth_tx_t.
Variables outValLen pageIdx : Z.

Definition printEthHash : parser_error_t * string :=
  (parser_ok, "Eth-Hash"%string).

Definition printERC20Transfer (displayIdx : Z) : parser_error_t * string :=
  let t := tx eth_tx_obj in
  let displayIdx :=
    if (tx_type eth_tx_obj =? eip1559) && (7 <=? displayIdx)
    then uint8 (displayIdx + 1) else displayIdx in
  let displayIdx :=
    if ((tx_type eth_tx_obj =? legacy) || (tx_type eth_tx_obj =? eip2930))
       && (4 <=? displayIdx)
    then uint8 (displayIdx + 2) else displayIdx in
  match displayIdx with
  | 0 =>
      let to := mk_rlp RLP_KIND_STRING (ptr_add (ptr (data t)) (4 + 12))
                  ETH_ADDRESS_LEN in
      (printEVMAddress to outValLen pageIdx, "Receiver"%string)
  | 1 =>
      let contractAddress :=
        mk_rlp RLP_KIND_STRING (ptr (to t)) ETH_ADDRESS_LEN in
      (printEVMAddress contractAddress outValLen pageIdx, "Contract"%string)
  | 2 => (printERC20Value eth_tx_obj outValLen pageIdx, "Amount"%string)
  | 3 => (printRLPNumber (nonce t) outValLen pageIdx, "Nonce"%string)
  | 4 => (printRLPNumber (max_priority_fee_per_gas t) outValLen pageIdx,
          "Max Priority Fee"%string)
  | 5 => (printRLPNumber (max_fee_per_gas t) outValLen pageIdx,
          "Max Fee"%string)
  | 6 => (printRLPNumber (gasLimit t) outValLen pageIdx, "Gas limit"%string)
  | 7 => (printRLPNumber (gasPrice t) outValLen pageIdx, "Gas price"%string)
  | 8 => (printRLPNumber (value t) outValLen pageIdx, "Value"%string)
  | 9 => (parser_ok, "Data"%string)
  | 10 => printEthHash
  | _ => (parser_display_page_out_of_range, EmptyString)
  end.

Definition printGeneric (displayIdx : Z) : parser_error_t * string :=
  let t := tx eth_tx_obj in
  let displayIdx :=
    if ((2 <=? displayIdx) && (rlpLen (data t) =? 0)) || (rlpLen (to t) =? 0)
    then uint8 (displayIdx + 1) else displayIdx in
  let displayIdx :=
    if (tx_type eth_tx_obj =? eip1559) && (6 <=? displayIdx)
    then uint8 (displayIdx + 1) else displayIdx in
  let displayIdx :=
    if ((tx_type eth_tx_obj =? legacy) || (tx_type eth_tx_obj =? eip2930))
       && (3 <=? displayIdx)
    then uint8 (displayIdx + 2) else displayIdx in
  match displayIdx with
  | 0 =>
      let contractAddress :=
        mk_rlp RLP_KIND_STRING (ptr (to t)) ETH_ADDRESS_LEN in
      (printEVMAddress contractAddress outValLen pageIdx, "To"%string)
  | 1 => (parser_ok, "Value"%string)
  | 2 => (parser_ok, "Data"%string)
  | 3 => (printRLPNumber (max_priority_fee_per_gas t) outValLen pageIdx,
          "Max Priority Fee"%string)
  | 4 => (printRLPNumber (max_fee_per_gas t) outValLen pageIdx,
          "Max Fee"%string)
  | 5 => (printRLPNumber (gasLimit t) outValLen pageIdx, "Gas limit"%string)
  | 6 => (printRLPNumber (gasPrice t) outValLen pageIdx, "Gas price"%string)
  | 7 => (printRLPNumber (nonce t) outValLen pageIdx, "Nonce"%string)
  | 8 => printEthHash
  | _ => (parser_display_page_out_of_range, EmptyString)
  end.

(** [_getItemEth] writes nothing on its last line: the empty key of that
    branch stands for a buffer left as the caller passed it, whose prior
    content is not carried here.  Only the status of that branch is a
    statement about the code. *)
Definition _getItemEth (expert : bool) (displayIdx : Z)
  : parser_error_t * string :=
  if is_erc20_transfer eth_tx_obj then printERC20Transfer displayIdx
  else if expert then printGeneric displayIdx
  else (parser_unsupported_tx, EmptyString).

End Display.

Definition _getNumItemsEth (eth_tx_obj : eth_tx_t)
  : parser_error_t * Z * eth_tx_t :=
  let '(r, eth_tx_obj) := validateERC20 eth_tx_obj in
  if r then
    if (tx_type eth_tx_obj =? legacy) || (tx_type eth_tx_obj =? eip2930)
    then (parser_ok, 9, eth_tx_obj)
    else (parser_ok, 10, eth_tx_obj)
  else
    (parser_ok,
     uint8 (5 + (if negb (rlpLen (data (tx eth_tx_obj)) =? 0) then 1 else 0)
              + (if negb (rlpLen (to (tx eth_tx_obj)) =? 0) then 1 else 0)),
     eth_tx_obj).

(** ** Recovery byte *)

(** Modelled from the spec: the SDK constant [CX_ECCINFO_PARITY_ODD] is not
    declared in the sources at hand.  Section 4.6: the parity is the low bit
    of the hint. *)
Definition CX_ECCINFO_PARITY_ODD : Z := 1.

Definition UINT32_MAX : Z := 4294967295.

(** Modelled from the spec: [saturating_add_u32] is not part of the sources
    at hand.  Section 4.6: saturating addition on 32 bits. *)
Definition saturating_add_u32 (a b : Z) : Z :=
  if UINT32_MAX <? a + b then UINT32_MAX else a + b.

Definition uint32 (n : Z) : Z := n mod 4294967296.

Definition parity_of (info : Z) : Z :=
  if Z.land info CX_ECCINFO_PARITY_ODD =? 1 then 1 else 0.

(** [_computeV] reads the type from the process-wide record and the chain
    ID from its argument. *)
Definition _computeV (eth_tx_obj tx_obj : eth_tx_t) (info : Z) : result Z :=
  let type := uint8 (tx_type eth_tx_obj) in
  let parity := parity_of info in
  if (type =? eip2930) || (type =? eip1559) then Ok parity
  else if rlpLen (chainId tx_obj) =? 0 then Ok (uint8 (27 + parity))
  else
    CHECK_ERROR id <-
      be_bytes_to_u64 (ptr (chainId tx_obj)) (rlpLen (chainId tx_obj));
    let cv := uint32 (35 + parity) in
    let cv := saturating_add_u32 cv (uint32 (uint32 id * 2)) in
    Ok (uint8 cv).

(** ** Signing *)

Inductive zxerr_t : Set :=
| zxerr_ok
| zxerr_unknown
| zxerr_invalid_crypto_settings.

Definition zxerr_eqb (a b : zxerr_t) : bool :=
  match a, b with
  | zxerr_ok, zxerr_ok
  | zxerr_unknown, zxerr_unknown
  | zxerr_invalid_crypto_settings, zxerr_invalid_crypto_settings => true
  | _, _ => false
  end.

Definition CX_OK : Z := 0.

(** The device SDK: sizes declared in its headers and the three calls of
    [crypto_sign].  Each call returns its status and the new content of the
    buffer it writes, whatever the status. *)
Class CxSdk : Type := {
  ED25519_SIGNATURE_SIZE : Z;
  SK_LEN_25519 : nat;
  SCALAR_LEN_ED25519 : Z;
  sizeof_cx_ecfp_private_key_t : nat;
  os_derive_bip32_with_seed_no_throw :
    list Z -> list byte -> Z * list byte;
  cx_ecfp_init_private_key_no_throw :
    list byte -> Z -> list byte -> Z * list byte;
  cx_eddsa_sign_no_throw :
    list byte -> list byte -> Z -> list byte -> Z -> Z * list byte
}.

(** [MEMZERO(p, n)]. *)
Definition MEMZERO (p : list byte) (n : nat) : list byte :=
  repeat x00 n ++ skipn n p.

(** The two locals of [crypto_sign] as they are when the function
    returns. *)
Record sign_locals : Set := mk_locals {
  cx_privateKey : list byte;
  privateKeyData : list byte
}.

(** What a call leaves behind: its status, its locals if they were ever
    live, and the content of the caller's signature buffer ([None] for a
    null pointer). *)
Record sign_outcome : Set := mk_outcome {
  sign_status : zxerr_t;
  sign_frame : option sign_locals;
  sign_signature : option (list byte)
}.

Section Signing.

Context {Sdk : CxSdk}.

Definition catch_cx_error (error : zxerr_t) (key pkd signature : list byte)
    (signatureMaxlen : Z) : sign_outcome :=
  let key := MEMZERO key sizeof_cx_ecfp_private_key_t in
  let pkd := MEMZERO pkd SK_LEN_25519 in
  let signature :=
    if negb (zxerr_eqb error zxerr_ok)
    then MEMZERO signature (Z.to_nat signatureMaxlen) else signature in
  mk_outcome error (Some (mk_locals key pkd)) (Some signature).

(** [hdPath] is the global derivation path; [stack] is what the
    uninitialised [cx_privateKey] holds when it comes to life. *)
Definition crypto_sign (hdPath : list Z) (stack : list byte)
    (signature : option (list byte)) (signatureMaxlen : Z)
    (message : option (list byte)) (messageLen : Z) : sign_outcome :=
  match signature, message with
  | Some sig, Some msg =>
      if (signatureMaxlen <? ED25519_SIGNATURE_SIZE) || (messageLen =? 0) then
        mk_outcome zxerr_invalid_crypto_settings None signature
      else
        let key := stack in
        let pkd := repeat x00 SK_LEN_25519 in
        let error := zxerr_unknown in
        let '(rc, pkd) := os_derive_bip32_with_seed_no_throw hdPath pkd in
        if negb (rc =? CX_OK) then
          catch_cx_error error key pkd sig signatureMaxlen
        else
          let '(rc, key) :=
            cx_ecfp_init_private_key_no_throw pkd SCALAR_LEN_ED25519 key in
          if negb (rc =? CX_OK) then
            catch_cx_error error key pkd sig signatureMaxlen
          else
            let '(rc, sig) :=
              cx_eddsa_sign_no_throw key msg messageLen sig signatureMaxlen in
            if negb (rc =? CX_OK) then
              catch_cx_error error key pkd sig signatureMaxlen
            else
              catch_cx_error zxerr_ok key pkd sig signatureMaxlen
  | _, _ => mk_outcome zxerr_invalid_crypto_settings None signature
  end.

End Signing.

(** ** Invariant of a parsed record *)

(** The invariant the three bodies share: the recipient view lies inside
    the payload, and a chain ID, when present, is on the allow-list. *)
Definition parsed_ok (bound : Z) (tx_obj : eth_tx_t) : Prop :=
  0 <= rlpLen (to (tx tx_obj)) <= bound /\
  (rlpLen (chainId tx_obj) = 0 \/
   (2 <= rlpLen (chainId tx_obj) <= 8 /\
    chain_id_allowed
      (be_value (firstn (Z.to_nat (rlpLen (chainId tx_obj)))
                   (ptr (chainId tx_obj)))) = true)).

(** ** Concrete inputs *)

(** A legacy transaction without chain ID whose recipient and data are
    both empty: the list of six empty strings. *)
Definition legacy_empty_to_and_data : list byte :=
  [xc6; x80; x80; x80; x80; x80; x80].

(** An EIP-1559 transaction on chain 3338 with a 20-byte recipient, one
    byte of data and an empty access list; it is not an ERC-20 transfer. *)
Definition generic_1559 : list byte :=
  [x02; xdf; x82; x0d; x0a; x80; x80; x80; x80; x94]
  ++ repeat x11 20 ++ [x80; x01; xc0].

(** Renderers that always succeed. *)
Definition renderers_ok : Renderers :=
  Build_Renderers (fun _ _ _ => parser_ok) (fun _ _ _ => parser_ok)
    (fun _ _ _ => parser_ok).

(** A device whose derivation and key set-up succeed and whose signing
    call fails after writing into the signature buffer. *)
Definition sdk_sign_fails : CxSdk :=
  Build_CxSdk 64 64%nat 32 40%nat
    (fun _ _ => (CX_OK, repeat x2a 64))
    (fun _ _ _ => (CX_OK, repeat x2a 40))
    (fun _ _ _ _ _ => (1, repeat x55 64)).

(** An ERC-20 transfer in an EIP-1559 envelope on chain 9990: 20-byte
    recipient, empty value, and 68 bytes of data made of the selector
    a9059cbb, 12 zero bytes, a 20-byte receiver and a 32-byte amount. *)
Definition erc20_1559 : list byte :=
  [x02; xf8; x64; x82; x27; x06; x80; x80; x80; x80; x94]
  ++ repeat x22 20
  ++ [x80; xb8; x44; xa9; x05; x9c; xbb]
  ++ repeat x00 12 ++ repeat x33 20 ++ repeat x00 24
  ++ [x0d; xe0; xb6; xb3; xa7; x64; x00; x00; xc0].

(** A legacy transfer without chain ID to a 20-byte recipient, with empty
    value and data. *)
Definition legacy_plain_transfer : list byte :=
  [xda; x80; x80; x80; x94] ++ repeat x11 20 ++ [x80; x80].

(** A device whose three calls succeed. *)
Definition sdk_signs : CxSdk :=
  Build_CxSdk 64 64%nat 32 40%nat
    (fun _ _ => (CX_OK, repeat x2a 64))
    (fun _ _ _ => (CX_OK, repeat x2a 40))
    (fun _ _ _ _ _ => (CX_OK, repeat x55 64)).

(** ** Items of the outer list by position *)

(** [skip_items n] performs [n] successive reads and keeps the context the
    last one leaves.  The recipient is the fourth item of a legacy list, the
    fifth of an EIP-2930 list and the sixth of an EIP-1559 list: the number
    of reads that stand before [rlp_read(ctx, &(tx_obj->tx.to))] in
    [parse_legacy_tx], [parse_2930] and [parse_1559]. *)
Fixpoint skip_items (n : nat) (ctx : parser_context_t)
  : result parser_context_t :=
  match n with
  | O => Ok ctx
  | S m => CHECK_ERROR '(_, ctx) <- rlp_read ctx; skip_items m ctx
  end.

Definition to_position (type : Z) : nat :=
  if type =? eip1559 then 5%nat
  else if type =? eip2930 then 4%nat
  else 3%nat.

(** ** Recovery byte: the call with its pointers *)

(** [_computeV] as it is called: [ctx], [tx_obj] and [v] are pointers, and
    [None] is the null pointer.  The guard of its first lines answers
    [parser_unexpected_error] when one of them is null; the rest of the
    body is [_computeV] above.  [v] holds the byte behind the out-pointer
    before the call. *)
Definition _computeV_call (eth_tx_obj : eth_tx_t)
    (ctx : option parser_context_t) (tx_obj : option eth_tx_t) (info : Z)
    (v : option Z) : result Z :=
  match ctx, tx_obj, v with
  | Some _, Some tx_obj, Some _ => _computeV eth_tx_obj tx_obj info
  | _, _, _ => Err parser_unexpected_error
  end.

(** ** Views inside the buffer *)

(** A context is well formed when its cursor is not negative and its
    declared length does not exceed the bytes behind its buffer pointer; a
    view is in bounds when its payload length does not exceed the bytes
    behind its pointer. *)
Definition wf_ctx (ctx : parser_context_t) : Prop :=
  0 <= offset ctx /\ bufferLen ctx <= Z.of_nat (List.length (buffer ctx)).

Definition view_ok (it : rlp_t) : Prop :=
  0 <= rlpLen it <= Z.of_nat (List.length (ptr it)).

Definition views_in_bounds (tx_obj : eth_tx_t) : Prop :=
  view_ok (chainId tx_obj) /\
  view_ok (nonce (tx tx_obj)) /\ view_ok (gasPrice (tx tx_obj)) /\
  view_ok (gasLimit (tx tx_obj)) /\ view_ok (to (tx tx_obj)) /\
  view_ok (value (tx tx_obj)) /\ view_ok (data (tx tx_obj)) /\
  view_ok (max_priority_fee_per_gas (tx tx_obj)) /\
  view_ok (max_fee_per_gas (tx tx_obj)) /\
  view_ok (access_list (tx tx_obj)).

(** ** Address *)

Definition uint16 (n : Z) : Z := n mod 65536.

(** [crypto_fillAddress] of [crypto.c] and the encoder it calls.  The two
    sizes come from headers that are not at hand, and so does the status
    [zxerr_encoding_failed], which [crypto_sign] never returns: the three
    are parameters.  The result is the status, the content of [buffer] and
    the content of [*addrResponseLen] on return. *)
Section Address.

Variables PK_LEN_25519 SS58_ADDRESS_MAX_LEN : Z.
Variable zxerr_encoding_failed : zxerr_t.

Definition crypto_encodePubkey (buffer : list byte) (buffer_len : Z)
    (pubkey : list byte) : Z :=
  let address_len := 20 in
  address_len.

Definition crypto_fillAddress (buffer : list byte) (bufferLen : Z)
    (addrResponseLen : Z) : zxerr_t * list byte * Z :=
  if bufferLen <? PK_LEN_25519 + SS58_ADDRESS_MAX_LEN then
    (zxerr_unknown, buffer, addrResponseLen)
  else
    let buffer := MEMZERO buffer (Z.to_nat bufferLen) in
    let outLen :=
      uint8 (crypto_encodePubkey (ptr_add buffer PK_LEN_25519)
               (uint16 (bufferLen - PK_LEN_25519)) buffer) in
    if outLen =? 0 then
      (zxerr_encoding_failed, MEMZERO buffer (Z.to_nat bufferLen),
       addrResponseLen)
    else (zxerr_ok, buffer, uint16 (PK_LEN_25519 + outLen)).

End Address.

(** * Properties *)

(** ** Bytes and big-endian values *)

Lemma u8_range (b : byte) : 0 <= u8 b < 256.
Proof.
  unfold u8. pose proof (Byte.to_N_bounded b). lia.
Qed.

Lemma be_value_from_nonneg (bs : list byte) (acc : Z) :
  0 <= acc -> 0 <= fold_left (fun a b => a * 256 + u8 b) bs acc.
Proof.
  revert acc. induction bs as [|b bs IH]; intros acc Hacc; simpl.
  - exact Hacc.
  - apply IH. pose proof (u8_range b). lia.
Qed.

Lemma be_value_nonneg (bs : list byte) : 0 <= be_value bs.
Proof.
  unfold be_value. apply be_value_from_nonneg. lia.
Qed.

Lemma deref_range (p : ptr_t) (i : Z) : 0 <= deref p i < 256.
Proof.
  unfold deref. apply u8_range.
Qed.

(** Reading one byte through a pointer agrees with the big-endian value of
    the one-byte string at it. *)
Lemma be_value_one (p : ptr_t) : be_value (firstn 1 p) = deref p 0.
Proof.
  unfold be_value, deref. destruct p as [|b p]; simpl; reflexivity.
Qed.

(** ** The RLP reader *)

Ltac break_if H :=
  match type of H with
  | context [if ?c then _ else _] => destruct c eqn:?
  end.

(** Boolean comparisons of machine integers, as propositions for [lia]. *)
Ltac zbool :=
  repeat match goal with
         | H : (_ <? _) = true |- _ => apply Z.ltb_lt in H
         | H : (_ <? _) = false |- _ => apply Z.ltb_ge in H
         | H : (_ <=? _) = true |- _ => apply Z.leb_le in H
         | H : (_ <=? _) = false |- _ => apply Z.leb_gt in H
         | H : (_ =? _) = true |- _ => apply Z.eqb_eq in H
         | H : (_ =? _) = false |- _ => apply Z.eqb_neq in H
         end.

Lemma Ok_pair_inv {A B : Type} (a a' : A) (b b' : B) :
  Ok (a, b) = Ok (a', b') -> a = a' /\ b = b'.
Proof.
  intros H. inversion H. split; reflexivity.
Qed.

(** What a successful read guarantees: the context keeps its buffer, the
    cursor moves forward past the payload and stays inside the buffer, and
    a single-byte item is its own one-byte payload. *)
Lemma rlp_read_inv (ctx ctx' : parser_context_t) (it : rlp_t) :
  rlp_read ctx = Ok (it, ctx') ->
  buffer ctx' = buffer ctx /\ bufferLen ctx' = bufferLen ctx /\
  0 <= rlpLen it /\
  offset ctx < offset ctx' <= bufferLen ctx /\
  rlpLen it <= offset ctx' - offset ctx /\
  (kind it = RLP_KIND_BYTE ->
   rlpLen it = 1 /\ ptr it = ptr_add (buffer ctx) (offset ctx)).
Proof.
  unfold rlp_read, rlp_read_short, rlp_read_long.
  pose proof (deref_range (buffer ctx) (offset ctx)) as HB.
  intros H.
  repeat (break_if H; try discriminate);
    apply Ok_pair_inv in H; destruct H as [<- <-]; unfold advance;
    cbn [kind ptr rlpLen buffer bufferLen offset]; zbool;
    repeat match goal with
           | |- context [be_value ?l] =>
               pose proof (be_value_nonneg l); generalize dependent (be_value l);
               intros
           end;
    repeat split; try lia; try discriminate; intros; try reflexivity.
Qed.

(** ** Chain-ID reader *)

Lemma chain_id_allowed_iff (id : Z) :
  chain_id_allowed id = true <-> id = 3338 \/ id = 9990 \/ id = 2241.
Proof.
  unfold chain_id_allowed; simpl.
  unfold PEAQ_MAINNET_CHAINID, PEAQ_TESTNET_CHAINID, PEAQ_CANARY_CHAINID.
  destruct (Z.eqb_spec id 3338); [intuition lia|].
  destruct (Z.eqb_spec id 9990); [intuition lia|].
  destruct (Z.eqb_spec id 2241); [intuition lia|].
  intuition (try discriminate; try lia).
Qed.

(** The value [readChainID] compares with the allow-list, for an item the
    reader has delivered. *)
Lemma readChainID_unfold (ctx ctx1 : parser_context_t) (chainId : rlp_t) :
  rlp_read ctx = Ok (chainId, ctx1) ->
  readChainID ctx =
  if (8 <? rlpLen chainId)
     || ((rlpLen chainId <=? 1)
         && negb (rlp_kind_eqb (kind chainId) RLP_KIND_BYTE))
  then Err parser_unexpected_error
  else if chain_id_allowed
            (be_value (firstn (Z.to_nat (rlpLen chainId)) (ptr chainId)))
  then Ok (chainId, ctx1)
  else Err parser_invalid_chain_id.
Proof.
  intros H. unfold readChainID. rewrite H. cbn [bind].
  destruct (rlp_read_inv _ _ _ H) as (_ & _ & _ & _ & _ & Hbyte).
  unfold be_bytes_to_u64.
  destruct (Z.ltb_spec 1 (rlpLen chainId)).
  - destruct (Z.ltb_spec 8 (rlpLen chainId)); cbn [bind orb].
    + reflexivity.
    + destruct (Z.leb_spec (rlpLen chainId) 1); [lia|]. reflexivity.
  - destruct (Z.ltb_spec 8 (rlpLen chainId)); [lia|].
    destruct (Z.leb_spec (rlpLen chainId) 1); [|lia].
    destruct (kind chainId) eqn:Hk; cbn [rlp_kind_eqb negb andb orb bind];
      try reflexivity.
    destruct (Hbyte eq_refl) as [-> _].
    change (Z.to_nat 1) with 1%nat. rewrite be_value_one. reflexivity.
Qed.

Lemma rlp_kind_eqb_spec (a b : rlp_kind_e) :
  reflect (a = b) (rlp_kind_eqb a b).
Proof.
  destruct a, b; simpl; constructor; congruence.
Qed.

(** C1, as amended.  For every RLP item that [readChainID] reads, the
    reader accepts (a) an item of single-byte kind, whose byte is the chain
    ID, or (b) any item whose payload has between 2 and 8 bytes, read as a
    big-endian unsigned integer.  It returns [unexpected_error] exactly when
    the payload has more than 8 bytes or the item is not of single-byte kind
    and has at most one payload byte; it returns [invalid_chain_id] exactly
    when the item is accepted and its value is none of 3338, 9990, 2241; it
    succeeds exactly when the item is accepted and its value is one of
    them. *)
Theorem readChainID_accepts (ctx ctx1 : parser_context_t) (chainId : rlp_t) :
  rlp_read ctx = Ok (chainId, ctx1) ->
  let len := rlpLen chainId in
  let id := be_value (firstn (Z.to_nat len) (ptr chainId)) in
  let accepted := (kind chainId = RLP_KIND_BYTE \/ 2 <= len) /\ len <= 8 in
  let allowed := id = 3338 \/ id = 9990 \/ id = 2241 in
  (readChainID ctx = Err parser_unexpected_error <->
   8 < len \/ (kind chainId <> RLP_KIND_BYTE /\ len <= 1)) /\
  (readChainID ctx = Err parser_invalid_chain_id <->
   accepted /\ ~ allowed) /\
  (readChainID ctx = Ok (chainId, ctx1) <-> accepted /\ allowed) /\
  (kind chainId = RLP_KIND_BYTE -> len = 1 /\ id = deref (ptr chainId) 0).
Proof.
  intros H len id accepted allowed.
  rewrite (readChainID_unfold _ _ _ H). fold len. fold id.
  destruct (rlp_read_inv _ _ _ H) as (_ & _ & Hlen & _ & _ & Hbyte).
  fold len in Hlen, Hbyte.
  pose proof (chain_id_allowed_iff id) as Hal. fold allowed in Hal.
  assert (Hb : kind chainId = RLP_KIND_BYTE -> len = 1 /\ id = deref (ptr chainId) 0).
  { intros Hk. destruct (Hbyte Hk) as [H1 _]. split; [exact H1|].
    unfold id. rewrite H1. apply be_value_one. }
  subst accepted.
  destruct (Z.ltb_spec 8 len) as [H8|H8];
    destruct (Z.leb_spec len 1) as [H1|H1];
    destruct (rlp_kind_eqb_spec (kind chainId) RLP_KIND_BYTE) as [Hk|Hk];
    cbn [orb andb negb];
    try (destruct (Hb Hk); lia);
    try (destruct (chain_id_allowed id) eqn:Ha;
         [ assert allowed by (apply Hal; reflexivity)
         | assert (~ allowed) by (intros Hc; apply Hal in Hc; discriminate) ]);
    (repeat split; try exact Hb; try discriminate; try tauto; try lia;
     try (intros _; tauto); try (intros _; lia);
     try (intros [? | [? ?]]; try lia; try contradiction; try discriminate);
     try (intros [[[? | ?] ?] ?]; try lia; contradiction)).
Qed.

(** Witness for C1: the two-byte string 0d0a, chain 3338. *)
Lemma readChainID_accepts_witness :
  readChainID (mk_ctx [x82; x0d; x0a] 3 0) =
  Ok (mk_rlp RLP_KIND_STRING [x0d; x0a] 2, mk_ctx [x82; x0d; x0a] 3 3).
Proof.
  pose proof (readChainID_accepts (mk_ctx [x82; x0d; x0a] 3 0)
                (mk_ctx [x82; x0d; x0a] 3 3)
                (mk_rlp RLP_KIND_STRING [x0d; x0a] 2) eq_refl) as H.
  cbv zeta in H. destruct H as (_ & _ & [_ H] & _). apply H.
  split; [split; [right; cbn; lia | cbn; lia] | left; reflexivity].
Defined.

(** Counterexample to C1 as stated: the one-byte string 81 85 has a payload
    of one byte, which does not exceed 8, and is rejected with
    [unexpected_error] instead of being decoded to 133. *)
Lemma readChainID_rejects_one_byte_string :
  rlp_read (mk_ctx [x81; x85] 2 0) =
    Ok (mk_rlp RLP_KIND_STRING [x85] 1, mk_ctx [x81; x85] 2 2) /\
  readChainID (mk_ctx [x81; x85] 2 0) = Err parser_unexpected_error.
Proof.
  split; reflexivity.
Qed.

(** ** Type tag *)

(** C7.  For a non-empty buffer the first byte decides: 0x01 gives EIP2930
    and 0x02 gives EIP1559, the cursor moving past the tag; a byte at or
    above 0xC0 gives LEGACY with the cursor unmoved; any other byte makes
    the tag reader, and with it [decode], fail with [unsupported_tx]. *)
Theorem readTxnType_classifies (b : byte) (rest : list byte) :
  let ctx := mk_ctx (b :: rest) (Z.of_nat (List.length (b :: rest))) 0 in
  (u8 b = 1 -> readTxnType ctx = Ok (eip2930, advance ctx 1)) /\
  (u8 b = 2 -> readTxnType ctx = Ok (eip1559, advance ctx 1)) /\
  (192 <= u8 b -> readTxnType ctx = Ok (legacy, ctx)) /\
  (u8 b < 192 -> u8 b <> 1 -> u8 b <> 2 ->
   readTxnType ctx = Err parser_unsupported_tx /\
   decode (b :: rest) = Err parser_unsupported_tx).
Proof.
  intros ctx.
  assert (Hgen : readTxnType ctx =
                 if (u8 b =? eip2930) || (u8 b =? eip1559)
                 then Ok (u8 b, advance ctx 1)
                 else if u8 b <? legacy then Err parser_unsupported_tx
                 else Ok (legacy, ctx)).
  { unfold readTxnType, ctx. cbn [bufferLen offset buffer].
    destruct (Z.eqb_spec (Z.of_nat (List.length (b :: rest))) 0) as [E|_].
    - cbn [List.length] in E. lia.
    - reflexivity. }
  unfold eip2930, eip1559, legacy in *.
  split; [|split; [|split]].
  - intros E. rewrite Hgen, E. reflexivity.
  - intros E. rewrite Hgen, E. reflexivity.
  - intros E. rewrite Hgen.
    destruct (Z.eqb_spec (u8 b) 1); [lia|].
    destruct (Z.eqb_spec (u8 b) 2); [lia|].
    destruct (Z.ltb_spec (u8 b) 192); [lia|]. reflexivity.
  - intros Hlt H1 H2.
    assert (E : readTxnType ctx = Err parser_unsupported_tx).
    { rewrite Hgen.
      destruct (Z.eqb_spec (u8 b) 1); [lia|].
      destruct (Z.eqb_spec (u8 b) 2); [lia|].
      destruct (Z.ltb_spec (u8 b) 192); [|lia]. reflexivity. }
    split; [exact E|].
    unfold decode, _readEth. fold ctx. rewrite E. reflexivity.
Qed.

(** Witness for C7: the four classes at the bytes 01, 02, c0 and 7f. *)
Lemma readTxnType_classifies_witness :
  readTxnType (mk_ctx [x01] 1 0) = Ok (eip2930, mk_ctx [x01] 1 1) /\
  readTxnType (mk_ctx [x02] 1 0) = Ok (eip1559, mk_ctx [x02] 1 1) /\
  readTxnType (mk_ctx [xc0] 1 0) = Ok (legacy, mk_ctx [xc0] 1 0) /\
  decode [x7f] = Err parser_unsupported_tx.
Proof.
  split; [|split; [|split]].
  - apply (readTxnType_classifies x01 []). reflexivity.
  - apply (readTxnType_classifies x02 []). reflexivity.
  - apply (readTxnType_classifies xc0 []). cbn. lia.
  - apply (readTxnType_classifies x7f []); cbn; lia.
Defined.

Lemma readTxnType_inv (ctx ctx' : parser_context_t) (type : Z) :
  readTxnType ctx = Ok (type, ctx') ->
  buffer ctx' = buffer ctx /\ bufferLen ctx' = bufferLen ctx /\
  offset ctx = 0 /\ (offset ctx' = 0 \/ offset ctx' = 1) /\
  (type = eip2930 \/ type = eip1559 \/ type = legacy).
Proof.
  unfold readTxnType. intros H.
  destruct (Z.eqb_spec (bufferLen ctx) 0); [discriminate|].
  destruct (Z.eqb_spec (offset ctx) 0) as [E0|]; [|discriminate].
  cbn [orb negb] in H.
  destruct (Z.eqb_spec (deref (buffer ctx) (offset ctx)) eip2930) as [E|].
  - cbn [orb] in H. apply Ok_pair_inv in H. destruct H as [<- <-].
    unfold advance; cbn [buffer bufferLen offset]. intuition lia.
  - destruct (Z.eqb_spec (deref (buffer ctx) (offset ctx)) eip1559) as [E|].
    + cbn [orb] in H. apply Ok_pair_inv in H. destruct H as [<- <-].
      unfold advance; cbn [buffer bufferLen offset]. intuition lia.
    + cbn [orb] in H. break_if H; [discriminate|].
      apply Ok_pair_inv in H. destruct H as [<- <-]. intuition lia.
Qed.

(** ** Entry point *)

(** C8.  [decode] succeeds only if, after the optional tag byte, the reader
    delivers one outer item of list kind whose encoding ends at the last
    byte of the buffer.  When the outer item is not a list, [decode] fails
    with [unexpected_value]; when it is a list and bytes remain after it,
    [decode] fails with [unexpected_characters]. *)
Theorem decode_outer_list (buf : list byte) :
  let ctx0 := mk_ctx buf (Z.of_nat (List.length buf)) 0 in
  (forall tx_obj, decode buf = Ok tx_obj ->
     exists type ctx1 outer ctx2,
       readTxnType ctx0 = Ok (type, ctx1) /\
       rlp_read ctx1 = Ok (outer, ctx2) /\
       kind outer = RLP_KIND_LIST /\
       offset ctx2 = Z.of_nat (List.length buf)) /\
  (forall type ctx1 outer ctx2,
     readTxnType ctx0 = Ok (type, ctx1) ->
     rlp_read ctx1 = Ok (outer, ctx2) ->
     (kind outer <> RLP_KIND_LIST ->
      decode buf = Err parser_unexpected_value) /\
     (kind outer = RLP_KIND_LIST ->
      offset ctx2 <> Z.of_nat (List.length buf) ->
      decode buf = Err parser_unexpected_characters)).
Proof.
  intros ctx0. split.
  - intros tx_obj. unfold decode, _readEth. fold ctx0.
    destruct (readTxnType ctx0) as [[type ctx1]|e] eqn:Ht; [|discriminate].
    cbn [bind].
    destruct (rlp_read ctx1) as [[outer ctx2]|e] eqn:Hr; [|discriminate].
    cbn [bind].
    destruct (rlp_kind_eqb_spec (kind outer) RLP_KIND_LIST) as [Hk|Hk];
      [|discriminate].
    cbn [negb].
    destruct (Z.eqb_spec (offset ctx2) (bufferLen ctx2)) as [Ho|Ho];
      [|discriminate].
    intros _. exists type, ctx1, outer, ctx2.
    destruct (readTxnType_inv _ _ _ Ht) as (_ & Hl1 & _).
    destruct (rlp_read_inv _ _ _ Hr) as (_ & Hl2 & _).
    repeat (split; [first [reflexivity | assumption]|]).
    rewrite Ho, Hl2, Hl1. reflexivity.
  - intros type ctx1 outer ctx2 Ht Hr.
    destruct (readTxnType_inv _ _ _ Ht) as (_ & Hl1 & _).
    destruct (rlp_read_inv _ _ _ Hr) as (_ & Hl2 & _).
    unfold decode, _readEth. fold ctx0. rewrite Ht. cbn [bind].
    rewrite Hr. cbn [bind].
    split.
    + intros Hk.
      destruct (rlp_kind_eqb_spec (kind outer) RLP_KIND_LIST);
        [contradiction|]. reflexivity.
    + intros Hk Ho.
      destruct (rlp_kind_eqb_spec (kind outer) RLP_KIND_LIST);
        [|contradiction].
      cbn [negb].
      destruct (Z.eqb_spec (offset ctx2) (bufferLen ctx2)) as [E|E].
      * exfalso. apply Ho. rewrite E, Hl2, Hl1. reflexivity.
      * reflexivity.
Qed.

(** Witness for C8: a typed envelope around a string, and an empty legacy
    list followed by one more byte. *)
Lemma decode_outer_list_witness :
  decode [x02; x80] = Err parser_unexpected_value /\
  decode [xc0; x00] = Err parser_unexpected_characters.
Proof.
  split.
  - refine (proj1 (proj2 (decode_outer_list [x02; x80]) eip1559
             (mk_ctx [x02; x80] 2 1) (mk_rlp RLP_KIND_STRING [] 0)
             (mk_ctx [x02; x80] 2 2) eq_refl eq_refl) _).
    cbn. discriminate.
  - refine (proj2 (proj2 (decode_outer_list [xc0; x00]) legacy
             (mk_ctx [xc0; x00] 2 0) (mk_rlp RLP_KIND_LIST [x00] 0)
             (mk_ctx [xc0; x00] 2 1) eq_refl eq_refl) eq_refl _).
    cbn. lia.
Defined.

(** ** Legacy body *)




(** ** What a successful parse leaves in the record *)

Lemma readChainID_inv (ctx ctx' : parser_context_t) (it : rlp_t) :
  readChainID ctx = Ok (it, ctx') ->
  rlp_read ctx = Ok (it, ctx') /\
  2 <= rlpLen it <= 8 /\
  chain_id_allowed (be_value (firstn (Z.to_nat (rlpLen it)) (ptr it))) = true.
Proof.
  intros H.
  destruct (rlp_read ctx) as [[it0 c0]|e] eqn:Hr.
  - destruct (rlp_read_inv _ _ _ Hr) as (_ & _ & Hn & _ & _ & Hb).
    rewrite (readChainID_unfold _ _ _ Hr) in H.
    break_if H; [discriminate|].
    destruct (chain_id_allowed _) eqn:Ha in H; [|discriminate].
    apply Ok_pair_inv in H. destruct H as [<- <-].
    split; [reflexivity|]. split; [|exact Ha].
    apply orb_false_iff in Heqb. destruct Heqb as [H8 H1]. zbool.
    split; [|lia].
    destruct (rlp_kind_eqb_spec (kind it0) RLP_KIND_BYTE) as [Hk|Hk].
    + exfalso. destruct (Hb Hk) as [Hl _].
      apply chain_id_allowed_iff in Ha. rewrite Hl in Ha.
      change (Z.to_nat 1) with 1%nat in Ha. rewrite be_value_one in Ha.
      pose proof (deref_range (ptr it0) 0). lia.
    + cbn [negb] in H1. rewrite andb_true_r in H1. zbool. lia.
  - unfold readChainID in H. rewrite Hr in H. discriminate.
Qed.

Ltac bind_step H :=
  match type of H with
  | bind ?c _ = Ok _ =>
      let E := fresh "E" in
      destruct c as [[? ?]|?] eqn:E; cbn [bind] in H; [|discriminate]
  end.

Ltac read_facts :=
  repeat match goal with
         | E : readChainID _ = Ok _ |- _ =>
             let Hr := fresh "Hr" in
             let Hl := fresh "Hl" in
             let Ha := fresh "Ha" in
             destruct (readChainID_inv _ _ _ E) as (Hr & Hl & Ha); clear E
         | E : rlp_read _ = Ok _ |- _ =>
             let Hb := fresh "Hb" in
             let Hl := fresh "Hl" in
             let Hn := fresh "Hn" in
             let Ho := fresh "Ho" in
             let Hp := fresh "Hp" in
             destruct (rlp_read_inv _ _ _ E) as (Hb & Hl & Hn & Ho & Hp & _);
             clear E
         end.

Lemma parse_legacy_tx_inv (ctx ctx' : parser_context_t)
    (tx_obj tx_obj' : eth_tx_t) :
  parse_legacy_tx ctx tx_obj = Ok (tx_obj', ctx') ->
  0 <= offset ctx ->
  tx_type tx_obj' = tx_type tx_obj /\ parsed_ok (bufferLen ctx) tx_obj'.
Proof.
  unfold parse_legacy_tx. intros H H0.
  do 6 bind_step H.
  break_if H.
  - apply Ok_pair_inv in H. destruct H as [<- <-].
    read_facts. unfold parsed_ok. cbn. split; [reflexivity|].
    split; [lia|]. left. reflexivity.
  - do 3 bind_step H. break_if H; [|discriminate].
    apply Ok_pair_inv in H. destruct H as [<- <-].
    read_facts. unfold parsed_ok. cbn. split; [reflexivity|].
    split; [lia|]. right. split; assumption.
Qed.

Lemma parse_2930_inv (ctx ctx' : parser_context_t)
    (tx_obj tx_obj' : eth_tx_t) :
  parse_2930 ctx tx_obj = Ok (tx_obj', ctx') ->
  0 <= offset ctx ->
  tx_type tx_obj' = tx_type tx_obj /\ parsed_ok (bufferLen ctx) tx_obj'.
Proof.
  unfold parse_2930. intros H H0.
  do 8 bind_step H. break_if H; [discriminate|].
  apply Ok_pair_inv in H. destruct H as [<- <-].
  read_facts. unfold parsed_ok. cbn. split; [reflexivity|].
  split; [lia|]. right. split; assumption.
Qed.

Lemma parse_1559_inv (ctx ctx' : parser_context_t)
    (tx_obj tx_obj' : eth_tx_t) :
  parse_1559 ctx tx_obj = Ok (tx_obj', ctx') ->
  0 <= offset ctx ->
  tx_type tx_obj' = tx_type tx_obj /\ parsed_ok (bufferLen ctx) tx_obj'.
Proof.
  unfold parse_1559. intros H H0.
  do 9 bind_step H. break_if H; [discriminate|].
  apply Ok_pair_inv in H. destruct H as [<- <-].
  read_facts. unfold parsed_ok. cbn. split; [reflexivity|].
  split; [lia|]. right. split; assumption.
Qed.

(** Every record that [decode] delivers has one of the three types and
    satisfies the invariant of the bodies, within the length of the
    input. *)
Lemma decode_inv (buf : list byte) (tx_obj : eth_tx_t) :
  decode buf = Ok tx_obj ->
  (tx_type tx_obj = eip2930 \/ tx_type tx_obj = eip1559 \/
   tx_type tx_obj = legacy) /\
  parsed_ok (Z.of_nat (List.length buf)) tx_obj.
Proof.
  unfold decode. intros H.
  destruct (_readEth _) as [[tx_obj0 c]|e] eqn:E; [|discriminate].
  cbn [bind] in H. injection H as ->.
  unfold _readEth in E.
  bind_step E. bind_step E.
  break_if E; [discriminate|]. break_if E; [discriminate|].
  destruct (readTxnType_inv _ _ _ E0) as (_ & Hl0 & _ & Hoff & Hty).
  cbn [bufferLen] in Hl0.
  destruct (rlp_read_inv _ _ _ E1) as (_ & Hl1 & Hn1 & Ho1 & Hp1 & _).
  cbn [tx_type set_tx_type] in E.
  assert (Hbound : forall t, parsed_ok (rlpLen r) t ->
                             parsed_ok (Z.of_nat (List.length buf)) t).
  { unfold parsed_ok. intros t [Hto Hc]. split; [lia | exact Hc]. }
  repeat break_if E; try discriminate; bind_step E;
    apply Ok_pair_inv in E; destruct E as [<- <-];
    match goal with
    | E : parse_1559 _ _ = Ok _ |- _ =>
        destruct (parse_1559_inv _ _ _ _ E) as [Ht Hp]
    | E : parse_2930 _ _ = Ok _ |- _ =>
        destruct (parse_2930_inv _ _ _ _ E) as [Ht Hp]
    | E : parse_legacy_tx _ _ = Ok _ |- _ =>
        destruct (parse_legacy_tx_inv _ _ _ _ E) as [Ht Hp]
    end;
    try (cbn [offset]; lia);
    cbn [bufferLen tx_type set_tx_type] in Ht, Hp;
    (split; [rewrite Ht; exact Hty | apply Hbound; exact Hp]).
Qed.

(** The reads that stand before the recipient, and the read that fills
    it. *)
Ltac chain_to_rlp_read :=
  repeat match goal with
         | E : readChainID _ = Ok _ |- _ =>
             let Hr := fresh "Hr" in
             destruct (readChainID_inv _ _ _ E) as (Hr & _ & _); clear E
         end.

Ltac run_skip_items :=
  repeat (cbn [skip_items bind];
          match goal with
          | E : rlp_read ?c = Ok _ |- context [rlp_read ?c] => rewrite E
          end);
  cbn [skip_items bind].

Lemma parse_legacy_tx_to (ctx ctx' : parser_context_t)
    (tx_obj tx_obj' : eth_tx_t) :
  parse_legacy_tx ctx tx_obj = Ok (tx_obj', ctx') ->
  exists c c',
    skip_items 3 ctx = Ok c /\ rlp_read c = Ok (to (tx tx_obj'), c').
Proof.
  unfold parse_legacy_tx. intros H. do 6 bind_step H.
  assert (Ht : exists c c' it,
             skip_items 3 ctx = Ok c /\ rlp_read c = Ok (it, c') /\
             to (tx tx_obj') = it).
  { break_if H; [| do 3 bind_step H; break_if H; [|discriminate]];
      apply Ok_pair_inv in H; destruct H as [<- _];
      do 3 eexists; (split; [run_skip_items; reflexivity|]);
      (split; [eassumption | reflexivity]). }
  destruct Ht as (c & c' & it & Hs & Hr & ->). exists c, c'. auto.
Qed.

Lemma parse_2930_to (ctx ctx' : parser_context_t)
    (tx_obj tx_obj' : eth_tx_t) :
  parse_2930 ctx tx_obj = Ok (tx_obj', ctx') ->
  exists c c',
    skip_items 4 ctx = Ok c /\ rlp_read c = Ok (to (tx tx_obj'), c').
Proof.
  unfold parse_2930. intros H. do 8 bind_step H.
  break_if H; [discriminate|].
  apply Ok_pair_inv in H. destruct H as [<- _]. chain_to_rlp_read.
  assert (Ht : exists c c' it,
             skip_items 4 ctx = Ok c /\ rlp_read c = Ok (it, c') /\
             to (tx (set_access_list (set_data (set_value (set_to
               (set_gasLimit (set_gasPrice (set_nonce
                 (set_chainId tx_obj r) r0) r1) r2) r3) r4) r5) r6)) = it).
  { do 3 eexists. split; [run_skip_items; reflexivity|].
    split; [eassumption | reflexivity]. }
  destruct Ht as (c & c' & it & Hs & Hr' & ->). exists c, c'. auto.
Qed.

Lemma parse_1559_to (ctx ctx' : parser_context_t)
    (tx_obj tx_obj' : eth_tx_t) :
  parse_1559 ctx tx_obj = Ok (tx_obj', ctx') ->
  exists c c',
    skip_items 5 ctx = Ok c /\ rlp_read c = Ok (to (tx tx_obj'), c').
Proof.
  unfold parse_1559. intros H. do 9 bind_step H.
  break_if H; [discriminate|].
  apply Ok_pair_inv in H. destruct H as [<- _]. chain_to_rlp_read.
  assert (Ht : exists c c' it,
             skip_items 5 ctx = Ok c /\ rlp_read c = Ok (it, c') /\
             to (tx (set_access_list (set_data (set_value (set_to
               (set_gasLimit (set_max_fee_per_gas
                 (set_max_priority_fee_per_gas (set_nonce
                   (set_chainId tx_obj r) r0) r1) r2) r3) r4) r5) r6)
                 r7)) = it).
  { do 3 eexists. split; [run_skip_items; reflexivity|].
    split; [eassumption | reflexivity]. }
  destruct Ht as (c & c' & it & Hs & Hr' & ->). exists c, c'. auto.
Qed.

(** C4, as amended.  [decode] tests no length on the recipient.  On success
    the [to] view of the record is exactly the item that the reader
    delivers at the recipient's position in the payload of the outer list
    (after 3 items for legacy, 4 for EIP-2930, 5 for EIP-1559), whatever
    its length; that length is only bounded by the input, 0 <= length <=
    length of the buffer.  Lengths 0 and 20 are decoded, and so are
    others. *)
Theorem decode_to_as_read (buf : list byte) (tx_obj : eth_tx_t) :
  decode buf = Ok tx_obj ->
  exists type ctx1 outer ctx2 c c',
    readTxnType (mk_ctx buf (Z.of_nat (List.length buf)) 0)
      = Ok (type, ctx1) /\
    rlp_read ctx1 = Ok (outer, ctx2) /\
    skip_items (to_position type) (mk_ctx (ptr outer) (rlpLen outer) 0)
      = Ok c /\
    rlp_read c = Ok (to (tx tx_obj), c') /\
    0 <= rlpLen (to (tx tx_obj)) <= Z.of_nat (List.length buf).
Proof.
  intros H. destruct (decode_inv _ _ H) as [_ [Hto _]].
  unfold decode in H.
  destruct (_readEth _) as [[tx_obj0 c0]|e] eqn:E; [|discriminate].
  cbn [bind] in H. apply (f_equal (fun r => match r with
                                           | Ok t => t
                                           | Err _ => tx_obj
                                           end)) in H. subst tx_obj0.
  unfold _readEth in E.
  bind_step E. bind_step E.
  break_if E; [discriminate|]. break_if E; [discriminate|].
  cbn [tx_type set_tx_type] in E.
  exists z, p, r, p0.
  assert (Hpos : exists c c',
             skip_items (to_position z)
               (mk_ctx (ptr r) (rlpLen r) 0) = Ok c /\
             rlp_read c = Ok (to (tx tx_obj), c')).
  { unfold to_position.
    repeat break_if E; try discriminate; bind_step E;
      apply Ok_pair_inv in E; destruct E as [<- _].
    - exact (parse_1559_to _ _ _ _ E2).
    - exact (parse_2930_to _ _ _ _ E2).
    - exact (parse_legacy_tx_to _ _ _ _ E2). }
  destruct Hpos as (c & c' & Hs & Hr). exists c, c'.
  split; [first [reflexivity | exact E0]|]. split; [exact E1|].
  split; [exact Hs|]. split; [exact Hr | exact Hto].
Qed.

(** Witness for C4: a pre-EIP-155 transfer to a 20-byte address. *)
Lemma decode_to_as_read_witness :
  exists tx_obj,
    decode legacy_plain_transfer = Ok tx_obj /\
    exists type ctx1 outer ctx2 c c',
      readTxnType (mk_ctx legacy_plain_transfer
                     (Z.of_nat (List.length legacy_plain_transfer)) 0)
        = Ok (type, ctx1) /\
      rlp_read ctx1 = Ok (outer, ctx2) /\
      skip_items (to_position type) (mk_ctx (ptr outer) (rlpLen outer) 0)
        = Ok c /\
      rlp_read c = Ok (to (tx tx_obj), c') /\
      0 <= rlpLen (to (tx tx_obj))
        <= Z.of_nat (List.length legacy_plain_transfer).
Proof.
  assert (Hd : exists t, decode legacy_plain_transfer = Ok t)
    by (eexists; vm_compute; reflexivity).
  destruct Hd as [t Hd]. exists t. split; [exact Hd|].
  exact (decode_to_as_read legacy_plain_transfer t Hd).
Defined.

(** Counterexample to C4 as stated: a legacy list whose fourth item is the
    single byte 01 decodes, and its recipient has one byte. *)
Lemma decode_accepts_one_byte_to :
  exists tx_obj,
    decode [xc6; x80; x80; x80; x01; x80; x80] = Ok tx_obj /\
    rlpLen (to (tx tx_obj)) = 1.
Proof.
  eexists. split; [vm_compute; reflexivity | reflexivity].
Qed.

(** ** Recovery byte *)

Lemma parity_of_bit (p : Z) : p = 0 \/ p = 1 -> parity_of p = p.
Proof.
  intros [-> | ->]; reflexivity.
Qed.

(** The three branches of [_computeV], with the 32-bit doubling written as
    one reduction. *)
Lemma _computeV_branches (eth_tx_obj tx_obj : eth_tx_t) (p : Z) :
  p = 0 \/ p = 1 ->
  let len := rlpLen (chainId tx_obj) in
  let c := be_value (firstn (Z.to_nat len) (ptr (chainId tx_obj))) in
  _computeV eth_tx_obj tx_obj p =
  if (uint8 (tx_type eth_tx_obj) =? eip2930)
     || (uint8 (tx_type eth_tx_obj) =? eip1559) then Ok p
  else if len =? 0 then Ok (27 + p)
  else if 8 <? len then Err parser_unexpected_error
  else Ok (uint8 (saturating_add_u32 (35 + p) ((2 * c) mod 4294967296))).
Proof.
  intros Hp len c. unfold _computeV. rewrite (parity_of_bit p Hp).
  fold len. destruct (_ || _); [reflexivity|].
  destruct (len =? 0).
  - unfold uint8. destruct Hp as [-> | ->]; reflexivity.
  - unfold be_bytes_to_u64. fold len. fold c.
    destruct (8 <? len); cbn [bind]; [reflexivity|].
    unfold uint32. rewrite Z.mul_mod_idemp_l by lia.
    rewrite (Z.mul_comm c 2).
    rewrite (Z.mod_small (35 + p)) by lia. reflexivity.
Qed.

(** C5, as amended.  For every record and parity p in {0,1}: [_computeV]
    returns p for EIP-2930 and EIP-1559; 27 + p for legacy with a
    zero-length chain ID; and for legacy with a chain ID c of 1 to 8 bytes,
    the low 8 bits of the 32-bit saturating sum of 35 + p and the doubled
    chain ID reduced modulo 2^32.  When c < 2^31 the doubling does not wrap
    and the result is the low 8 bits of the saturating sum 35 + p + 2c. *)
Theorem _computeV_spec (eth_tx_obj tx_obj : eth_tx_t) (p : Z) :
  p = 0 \/ p = 1 ->
  let len := rlpLen (chainId tx_obj) in
  let c := be_value (firstn (Z.to_nat len) (ptr (chainId tx_obj))) in
  (tx_type eth_tx_obj = eip2930 \/ tx_type eth_tx_obj = eip1559 ->
   _computeV eth_tx_obj tx_obj p = Ok p) /\
  (tx_type eth_tx_obj = legacy -> len = 0 ->
   _computeV eth_tx_obj tx_obj p = Ok (27 + p)) /\
  (tx_type eth_tx_obj = legacy -> 1 <= len <= 8 ->
   _computeV eth_tx_obj tx_obj p =
     Ok (uint8 (saturating_add_u32 (35 + p) ((2 * c) mod 4294967296))) /\
   (c < 2147483648 ->
    _computeV eth_tx_obj tx_obj p =
      Ok (uint8 (Z.min (35 + p + 2 * c) UINT32_MAX)))).
Proof.
  intros Hp len c.
  pose proof (_computeV_branches eth_tx_obj tx_obj p Hp) as Hgen.
  cbv zeta in Hgen. fold len in Hgen. fold c in Hgen.
  split; [|split].
  - intros [E | E]; rewrite Hgen, E; reflexivity.
  - intros E El. rewrite Hgen, E, El. reflexivity.
  - intros E Hl. rewrite Hgen, E.
    change ((uint8 legacy =? eip2930) || (uint8 legacy =? eip1559))
      with false. cbv iota.
    destruct (Z.eqb_spec len 0); [lia|].
    destruct (Z.ltb_spec 8 len); [lia|].
    split; [reflexivity|].
    intros Hc. pose proof (be_value_nonneg
      (firstn (Z.to_nat len) (ptr (chainId tx_obj)))) as Hnn. fold c in Hnn.
    rewrite Z.mod_small by lia.
    unfold saturating_add_u32, UINT32_MAX.
    destruct (Z.ltb_spec 4294967295 (35 + p + 2 * c)).
    + rewrite Z.min_r by lia. reflexivity.
    + rewrite Z.min_l by lia. reflexivity.
Qed.

(** Witness for C5: legacy on chain 3338 with odd parity. *)
Lemma _computeV_spec_witness :
  _computeV (set_tx_type eth_tx_zero legacy)
    (set_chainId eth_tx_zero (mk_rlp RLP_KIND_STRING [x0d; x0a] 2)) 1
  = Ok 56.
Proof.
  refine (proj2 (proj2 (proj2 (_computeV_spec
    (set_tx_type eth_tx_zero legacy)
    (set_chainId eth_tx_zero (mk_rlp RLP_KIND_STRING [x0d; x0a] 2)) 1
    (or_intror eq_refl))) eq_refl _) _).
  - cbn. lia.
  - vm_compute. reflexivity.
Defined.

(** Counterexample to C5 as stated: for the four-byte chain ID 80000000,
    that is 2^31, the doubling wraps to 0 and the byte is 35, where the
    saturating sum 35 + 2^32 would leave 255. *)
Lemma _computeV_wraps_large_chain_id :
  let r := set_tx_type
             (set_chainId eth_tx_zero
                (mk_rlp RLP_KIND_STRING [x80; x00; x00; x00] 4)) legacy in
  be_value (firstn 4 (ptr (chainId r))) = 2147483648 /\
  _computeV r r 0 = Ok 35 /\
  uint8 (Z.min (35 + 0 + 2 * 2147483648) UINT32_MAX) = 255.
Proof.
  repeat split.
Qed.

(** C6, as amended.  For every legacy record whose chain ID has 1 to 8
    bytes and decodes to a member of the allow-list (3338, 9990 or 2241),
    and every parity p in {0,1}: the bytes v(c,p) and v(c,1-p) differ by
    exactly one, and v(c,p) is at least 35. *)
Theorem _computeV_allowed_chain (eth_tx_obj tx_obj : eth_tx_t) (p : Z) :
  tx_type eth_tx_obj = legacy ->
  1 <= rlpLen (chainId tx_obj) <= 8 ->
  chain_id_allowed
    (be_value (firstn (Z.to_nat (rlpLen (chainId tx_obj)))
                 (ptr (chainId tx_obj)))) = true ->
  p = 0 \/ p = 1 ->
  exists v v',
    _computeV eth_tx_obj tx_obj p = Ok v /\
    _computeV eth_tx_obj tx_obj (1 - p) = Ok v' /\
    (v - v' = 1 \/ v - v' = -1) /\
    35 <= v.
Proof.
  intros Ht Hl Ha Hp.
  assert (Hq : 1 - p = 0 \/ 1 - p = 1) by lia.
  rewrite (_computeV_branches eth_tx_obj tx_obj p Hp).
  rewrite (_computeV_branches eth_tx_obj tx_obj (1 - p) Hq).
  cbv zeta. rewrite Ht.
  change ((uint8 legacy =? eip2930) || (uint8 legacy =? eip1559)) with false.
  cbv iota.
  destruct (Z.eqb_spec (rlpLen (chainId tx_obj)) 0); [lia|].
  destruct (Z.ltb_spec 8 (rlpLen (chainId tx_obj))); [lia|].
  apply chain_id_allowed_iff in Ha.
  do 2 eexists. split; [reflexivity|]. split; [reflexivity|].
  destruct Ha as [-> | [-> | ->]]; destruct Hp as [-> | ->];
    vm_compute; (split; [auto | discriminate]).
Qed.

(** Witness for C6: legacy on chain 9990. *)
Lemma _computeV_allowed_chain_witness :
  exists v v',
    _computeV (set_tx_type eth_tx_zero legacy)
      (set_chainId eth_tx_zero (mk_rlp RLP_KIND_STRING [x27; x06] 2)) 0
      = Ok v /\
    _computeV (set_tx_type eth_tx_zero legacy)
      (set_chainId eth_tx_zero (mk_rlp RLP_KIND_STRING [x27; x06] 2)) (1 - 0)
      = Ok v' /\
    (v - v' = 1 \/ v - v' = -1) /\
    35 <= v.
Proof.
  apply (_computeV_allowed_chain (set_tx_type eth_tx_zero legacy)
           (set_chainId eth_tx_zero (mk_rlp RLP_KIND_STRING [x27; x06] 2)) 0).
  - reflexivity.
  - cbn. lia.
  - vm_compute. reflexivity.
  - left. reflexivity.
Defined.

(** Counterexample to C6 as stated: for the chain ID 110 the sums 255 and
    256 are truncated to the bytes 255 and 0, which differ by 255, and the
    second is below 35. *)
Lemma _computeV_small_chain_id_truncates :
  let r := set_tx_type
             (set_chainId eth_tx_zero (mk_rlp RLP_KIND_BYTE [x6e] 1))
             legacy in
  _computeV r r 0 = Ok 255 /\ _computeV r r 1 = Ok 0.
Proof.
  split; reflexivity.
Qed.

(** The records [decode] delivers meet the hypotheses of the amended C6:
    a chain ID that is present has 2 to 8 bytes and is on the allow-list. *)
Lemma decode_chain_id_allowed (buf : list byte) (tx_obj : eth_tx_t) :
  decode buf = Ok tx_obj ->
  rlpLen (chainId tx_obj) <> 0 ->
  2 <= rlpLen (chainId tx_obj) <= 8 /\
  chain_id_allowed
    (be_value (firstn (Z.to_nat (rlpLen (chainId tx_obj)))
                 (ptr (chainId tx_obj)))) = true.
Proof.
  intros H Hn. destruct (decode_inv _ _ H) as [_ [_ [Hz | Hc]]].
  - contradiction.
  - exact Hc.
Qed.

(** ** Display *)

(** For legacy and EIP-2930 records shown generically, with a recipient or
    with data, the count of [_getNumItemsEth] is the first index that is
    out of range, and every index below it is served when the renderers
    succeed. *)
Lemma printGeneric_count_untyped (tx_obj : eth_tx_t) (outValLen pageIdx : Z) :
  tx_type tx_obj = legacy \/ tx_type tx_obj = eip2930 ->
  is_erc20_shape tx_obj = false ->
  rlpLen (to (tx tx_obj)) <> 0 \/ rlpLen (data (tx tx_obj)) <> 0 ->
  exists n,
    _getNumItemsEth tx_obj =
      (parser_ok, n, set_is_erc20_transfer tx_obj false) /\
    fst (@printGeneric renderers_ok tx_obj outValLen pageIdx n) =
      parser_display_page_out_of_range /\
    forall i, 0 <= i < n ->
      fst (@printGeneric renderers_ok tx_obj outValLen pageIdx i) = parser_ok.
Proof.
  intros Hty Hshape Hne.
  unfold _getNumItemsEth, validateERC20. rewrite Hshape.
  cbn [tx set_is_erc20_transfer].
  eexists. split; [reflexivity|].
  unfold printGeneric.
  assert (Et : (tx_type tx_obj =? eip1559) = false).
  { destruct Hty as [-> | ->]; reflexivity. }
  assert (El : (tx_type tx_obj =? legacy) || (tx_type tx_obj =? eip2930)
               = true).
  { destruct Hty as [-> | ->]; reflexivity. }
  rewrite Et, El. cbn [andb].
  destruct (Z.eqb_spec (rlpLen (data (tx tx_obj))) 0) as [Ed|Ed];
    destruct (Z.eqb_spec (rlpLen (to (tx tx_obj))) 0) as [Eo|Eo];
    cbn [negb]; try (exfalso; destruct Hne; contradiction);
    (split; [reflexivity|]);
    intros i Hi; change (uint8 (5 + _ + _)) with 6 in Hi ||
                 change (uint8 (5 + _ + _)) with 7 in Hi;
    assert (Hcases : i = 0 \/ i = 1 \/ i = 2 \/ i = 3 \/ i = 4 \/ i = 5
                     \/ i = 6) by lia;
    repeat (destruct Hcases as [-> | Hcases]; [try reflexivity; lia|]);
    subst i; try reflexivity; lia.
Qed.

(** The ERC-20 display agrees with its count: 9 items for legacy and
    EIP-2930, 10 for EIP-1559, the count being the first index out of
    range. *)
Lemma printERC20Transfer_count (tx_obj : eth_tx_t) (outValLen pageIdx : Z) :
  tx_type tx_obj = legacy \/ tx_type tx_obj = eip2930 \/
  tx_type tx_obj = eip1559 ->
  let n := if (tx_type tx_obj =? legacy) || (tx_type tx_obj =? eip2930)
           then 9 else 10 in
  fst (@printERC20Transfer renderers_ok tx_obj outValLen pageIdx n) =
    parser_display_page_out_of_range /\
  forall i, 0 <= i < n ->
    fst (@printERC20Transfer renderers_ok tx_obj outValLen pageIdx i)
      = parser_ok.
Proof.
  intros Hty n. subst n. unfold printERC20Transfer.
  destruct Hty as [E | [E | E]]; rewrite E;
    (split; [reflexivity|]);
    intros i Hi; cbn in Hi;
    assert (Hcases : i = 0 \/ i = 1 \/ i = 2 \/ i = 3 \/ i = 4 \/ i = 5
                     \/ i = 6 \/ i = 7 \/ i = 8 \/ i = 9) by lia;
    repeat (destruct Hcases as [-> | Hcases]; [try reflexivity; lia|]);
    subst i; try reflexivity; lia.
Qed.

(** C2, at its failing input.  For the generic EIP-1559 transaction
    [generic_1559] in expert mode, [_getNumItemsEth] reports 7 while
    [_getItemEth] serves the index 7 with the key Eth-Hash; the first index
    out of range is 8.  This holds whatever the renderers do. *)
Theorem getNumItems_misses_hash_of_generic_1559 {R : Renderers}
    (outValLen pageIdx : Z) :
  exists tx_obj,
    decode generic_1559 = Ok tx_obj /\
    _validateTxEth true tx_obj = (parser_ok, tx_obj) /\
    _getNumItemsEth tx_obj = (parser_ok, 7, tx_obj) /\
    _getItemEth tx_obj outValLen pageIdx true 7
      = (parser_ok, "Eth-Hash"%string) /\
    _getItemEth tx_obj outValLen pageIdx true 8
      = (parser_display_page_out_of_range, EmptyString).
Proof.
  eexists. split; [vm_compute; reflexivity|].
  repeat split.
Qed.

(** C3, at its failing input.  For the legacy transaction
    [legacy_empty_to_and_data] in expert mode, recipient and data are both
    empty and [_getNumItemsEth] reports 5, yet [_getItemEth] serves the
    index 1 with the key Data, and the index 5 with the key Eth-Hash.  This
    holds whatever the renderers do. *)
Theorem getItem_shows_empty_data {R : Renderers} (outValLen pageIdx : Z) :
  exists tx_obj,
    decode legacy_empty_to_and_data = Ok tx_obj /\
    rlpLen (to (tx tx_obj)) = 0 /\ rlpLen (data (tx tx_obj)) = 0 /\
    _validateTxEth true tx_obj = (parser_ok, tx_obj) /\
    _getNumItemsEth tx_obj = (parser_ok, 5, tx_obj) /\
    _getItemEth tx_obj outValLen pageIdx true 1
      = (parser_ok, "Data"%string) /\
    _getItemEth tx_obj outValLen pageIdx true 5
      = (parser_ok, "Eth-Hash"%string).
Proof.
  eexists. split; [vm_compute; reflexivity|].
  repeat split.
Qed.

(** ** Signing *)

Lemma MEMZERO_firstn (p : list byte) (n : nat) :
  firstn n (MEMZERO p n) = repeat x00 n.
Proof.
  unfold MEMZERO. rewrite firstn_app, repeat_length, Nat.sub_diag.
  rewrite firstn_all2 by (rewrite repeat_length; apply Nat.le_refl).
  cbn [firstn]. apply app_nil_r.
Qed.

Section SigningProperties.

Context {Sdk : CxSdk}.

(** What the exit through [catch_cx_error] leaves behind. *)
Lemma catch_cx_error_zeroes (error : zxerr_t) (key pkd sig : list byte)
    (signatureMaxlen : Z) :
  let out := catch_cx_error error key pkd sig signatureMaxlen in
  sign_status out = error /\
  (exists f, sign_frame out = Some f /\
     firstn sizeof_cx_ecfp_private_key_t (cx_privateKey f)
       = repeat x00 sizeof_cx_ecfp_private_key_t /\
     firstn SK_LEN_25519 (privateKeyData f) = repeat x00 SK_LEN_25519) /\
  (error <> zxerr_ok ->
   exists s, sign_signature out = Some s /\
     firstn (Z.to_nat signatureMaxlen) s
       = repeat x00 (Z.to_nat signatureMaxlen)).
Proof.
  unfold catch_cx_error. cbn [sign_status sign_frame sign_signature].
  split; [reflexivity|]. split.
  - eexists. split; [reflexivity|].
    cbn [cx_privateKey privateKeyData]. split; apply MEMZERO_firstn.
  - intros Hne. destruct error; try contradiction; cbn [zxerr_eqb negb];
      eexists; (split; [reflexivity | apply MEMZERO_firstn]).
Qed.

(** C10, as amended.  A call that fails the argument check returns
    [zxerr_invalid_crypto_settings] at once: no key material has been
    derived and the signature buffer is left as it was.  Every other call
    leaves through [catch_cx_error]: the private-key structure and the raw
    key bytes are zero on return whatever the status, and when the status is
    not [zxerr_ok] the [signatureMaxlen] bytes of the signature buffer are
    zero as well. *)
Theorem crypto_sign_zeroes (hdPath : list Z) (stack : list byte)
    (signature : option (list byte)) (signatureMaxlen : Z)
    (message : option (list byte)) (messageLen : Z) :
  let out :=
    crypto_sign hdPath stack signature signatureMaxlen message messageLen in
  match sign_frame out with
  | None =>
      (signature = None \/ message = None \/
       signatureMaxlen < ED25519_SIGNATURE_SIZE \/ messageLen = 0) /\
      sign_status out = zxerr_invalid_crypto_settings /\
      sign_signature out = signature
  | Some f =>
      (signature <> None /\ message <> None /\
       ED25519_SIGNATURE_SIZE <= signatureMaxlen /\ messageLen <> 0) /\
      firstn sizeof_cx_ecfp_private_key_t (cx_privateKey f)
        = repeat x00 sizeof_cx_ecfp_private_key_t /\
      firstn SK_LEN_25519 (privateKeyData f) = repeat x00 SK_LEN_25519 /\
      (sign_status out <> zxerr_ok ->
       exists s, sign_signature out = Some s /\
         firstn (Z.to_nat signatureMaxlen) s
           = repeat x00 (Z.to_nat signatureMaxlen))
  end.
Proof.
  unfold crypto_sign.
  destruct signature as [sig|]; [|cbn; auto].
  destruct message as [msg|]; [|cbn; auto].
  destruct (Z.ltb_spec signatureMaxlen ED25519_SIGNATURE_SIZE) as [Hs|Hs];
    [cbn; auto|].
  destruct (Z.eqb_spec messageLen 0) as [Hm|Hm]; [cbn; auto 6|].
  cbn [orb].
  assert (Hargs : Some sig <> None /\ Some msg <> None /\
                  ED25519_SIGNATURE_SIZE <= signatureMaxlen /\
                  messageLen <> 0).
  { repeat split; try discriminate; assumption. }
  assert (Hexit : forall error key pkd s,
    let out := catch_cx_error error key pkd s signatureMaxlen in
    match sign_frame out with
    | None => False
    | Some f =>
        firstn sizeof_cx_ecfp_private_key_t (cx_privateKey f)
          = repeat x00 sizeof_cx_ecfp_private_key_t /\
        firstn SK_LEN_25519 (privateKeyData f) = repeat x00 SK_LEN_25519 /\
        (sign_status out <> zxerr_ok ->
         exists s', sign_signature out = Some s' /\
           firstn (Z.to_nat signatureMaxlen) s'
             = repeat x00 (Z.to_nat signatureMaxlen))
    end).
  { intros error key pkd s out.
    destruct (catch_cx_error_zeroes error key pkd s signatureMaxlen)
      as (Hst & (f & Hf & Hk & Hp) & Hz).
    fold out in Hst, Hf, Hz. rewrite Hf. rewrite Hst.
    split; [exact Hk|]. split; [exact Hp|]. exact Hz. }
  destruct (os_derive_bip32_with_seed_no_throw _ _) as [rc1 pkd].
  destruct (negb (rc1 =? CX_OK)).
  { specialize (Hexit zxerr_unknown stack pkd sig). cbv zeta in Hexit |- *.
    destruct (sign_frame _); [split; [exact Hargs | exact Hexit]
                             | contradiction]. }
  destruct (cx_ecfp_init_private_key_no_throw _ _ _) as [rc2 key].
  destruct (negb (rc2 =? CX_OK)).
  { specialize (Hexit zxerr_unknown key pkd sig). cbv zeta in Hexit |- *.
    destruct (sign_frame _); [split; [exact Hargs | exact Hexit]
                             | contradiction]. }
  destruct (cx_eddsa_sign_no_throw _ _ _ _ _) as [rc3 sig'].
  destruct (negb (rc3 =? CX_OK)).
  { specialize (Hexit zxerr_unknown key pkd sig'). cbv zeta in Hexit |- *.
    destruct (sign_frame _); [split; [exact Hargs | exact Hexit]
                             | contradiction]. }
  specialize (Hexit zxerr_ok key pkd sig'). cbv zeta in Hexit |- *.
  destruct (sign_frame _); [split; [exact Hargs | exact Hexit]
                           | contradiction].
Qed.

End SigningProperties.

(** Witness for C10: the signing call of the device fails; the frame and
    the 64 bytes of the signature buffer are zero on return. *)
Lemma crypto_sign_zeroes_witness :
  let out :=
    @crypto_sign sdk_sign_fails [] (repeat xff 40) (Some (repeat xff 64)) 64
      (Some [x01]) 1 in
  exists f s,
    sign_frame out = Some f /\ sign_signature out = Some s /\
    firstn 40 (cx_privateKey f) = repeat x00 40 /\
    firstn 64 (privateKeyData f) = repeat x00 64 /\
    firstn 64 s = repeat x00 64.
Proof.
  pose proof (@crypto_sign_zeroes sdk_sign_fails [] (repeat xff 40)
                (Some (repeat xff 64)) 64 (Some [x01]) 1) as H.
  cbv zeta in H |- *.
  destruct (sign_frame _) as [f|] eqn:E; [|discriminate E].
  destruct H as (_ & Hk & Hp & Hz).
  destruct Hz as (s & Hs & Hs0); [vm_compute; discriminate|].
  exists f, s. split; [reflexivity|]. split; [exact Hs|].
  split; [exact Hk|]. split; [exact Hp | exact Hs0].
Defined.

(** Counterexample to C10 as stated: a call with an empty message fails
    and returns with the caller's signature buffer untouched. *)
Lemma crypto_sign_early_return_keeps_signature :
  let out :=
    @crypto_sign sdk_sign_fails [] (repeat xff 40) (Some (repeat xff 64)) 64
      (Some []) 0 in
  sign_status out = zxerr_invalid_crypto_settings /\
  sign_frame out = None /\
  sign_signature out = Some (repeat xff 64).
Proof.
  repeat split.
Qed.

(** * Further properties of the parser *)

(** ** Views stay inside the input *)

(** A successful read on a well-formed context leaves a well-formed
    context, delivers a view in bounds and consumes the payload plus a
    header that is empty only for a single byte. *)
Lemma rlp_read_in_bounds (ctx ctx' : parser_context_t) (it : rlp_t) :
  rlp_read ctx = Ok (it, ctx') -> wf_ctx ctx ->
  wf_ctx ctx' /\ view_ok it /\
  (kind it <> RLP_KIND_BYTE -> rlpLen it + 1 <= offset ctx' - offset ctx).
Proof.
  unfold rlp_read, rlp_read_short, rlp_read_long, wf_ctx, view_ok.
  pose proof (deref_range (buffer ctx) (offset ctx)) as HB.
  intros H [H0 Hlen].
  repeat (break_if H; try discriminate);
    apply Ok_pair_inv in H; destruct H as [<- <-]; unfold advance, ptr_add in *;
    cbn [kind ptr rlpLen buffer bufferLen offset]; zbool;
    rewrite ?length_skipn;
    repeat match goal with
           | |- context [be_value ?l] =>
               pose proof (be_value_nonneg l); generalize dependent (be_value l);
               intros
           end;
    (split; [lia|]); (split; [lia|]); intros Hk; try lia;
    exfalso; apply Hk; reflexivity.
Qed.

Lemma readChainID_consumes (ctx ctx' : parser_context_t) (it : rlp_t) :
  readChainID ctx = Ok (it, ctx') -> wf_ctx ctx ->
  rlp_read ctx = Ok (it, ctx') /\
  offset ctx + 3 <= offset ctx' /\
  2 <= rlpLen it <= 8 /\
  chain_id_allowed (be_value (firstn (Z.to_nat (rlpLen it)) (ptr it))) = true.
Proof.
  intros H W. destruct (readChainID_inv _ _ _ H) as (Hr & Hl & Ha).
  destruct (rlp_read_in_bounds _ _ _ Hr W) as (_ & _ & Hc).
  destruct (rlp_read_inv _ _ _ Hr) as (_ & _ & _ & _ & _ & Hb).
  repeat match goal with |- _ /\ _ => split end; try assumption; try lia.
  destruct (rlp_kind_eqb_spec (kind it) RLP_KIND_BYTE) as [Hk|Hk].
  - destruct (Hb Hk). lia.
  - specialize (Hc Hk). lia.
Qed.

Ltac read_bounds :=
  repeat match goal with
         | E : readChainID ?c = Ok _, W : wf_ctx ?c |- _ =>
             let Hr := fresh "Hr" in
             let Hc := fresh "Hc" in
             let Hl := fresh "Hl" in
             let Ha := fresh "Ha" in
             destruct (readChainID_consumes _ _ _ E W) as (Hr & Hc & Hl & Ha);
             clear E
         | E : rlp_read ?c = Ok _, W : wf_ctx ?c |- _ =>
             let Hw := fresh "Hw" in
             let Hv := fresh "Hv" in
             let Hb := fresh "Hb" in
             let Hl := fresh "Hl" in
             let Ho := fresh "Ho" in
             destruct (rlp_read_in_bounds _ _ _ E W) as (Hw & Hv & _);
             destruct (rlp_read_inv _ _ _ E) as (Hb & Hl & _ & Ho & _);
             clear E
         end.

Ltac split_all := repeat match goal with |- _ /\ _ => split end.

Lemma view_ok_zero : view_ok (mk_rlp RLP_KIND_BYTE NULL 0).
Proof.
  unfold view_ok. cbn. lia.
Qed.

(** What a successful legacy body leaves: views in bounds, the type, the
    flag and the fields of the typed envelopes untouched, and either no
    chain ID with the payload exhausted or an allowed chain ID. *)
Lemma parse_legacy_tx_shape (ctx ctx' : parser_context_t)
    (tx_obj tx_obj' : eth_tx_t) :
  parse_legacy_tx ctx tx_obj = Ok (tx_obj', ctx') ->
  wf_ctx ctx -> views_in_bounds tx_obj ->
  views_in_bounds tx_obj' /\
  (tx_type tx_obj' = tx_type tx_obj /\
   is_erc20_transfer tx_obj' = is_erc20_transfer tx_obj /\
   max_priority_fee_per_gas (tx tx_obj')
     = max_priority_fee_per_gas (tx tx_obj) /\
   max_fee_per_gas (tx tx_obj') = max_fee_per_gas (tx tx_obj) /\
   access_list (tx tx_obj') = access_list (tx tx_obj)) /\
  offset ctx + 6 <= offset ctx' <= bufferLen ctx /\
  ((chainId tx_obj' = mk_rlp RLP_KIND_BYTE NULL 0 /\
    offset ctx' = bufferLen ctx) \/
   (2 <= rlpLen (chainId tx_obj') <= 8 /\
    offset ctx + 11 <= offset ctx' /\
    chain_id_allowed
      (be_value (firstn (Z.to_nat (rlpLen (chainId tx_obj')))
                   (ptr (chainId tx_obj')))) = true)).
Proof.
  unfold parse_legacy_tx. intros H W V.
  unfold views_in_bounds in V.
  destruct V as (V0 & V1 & V2 & V3 & V4 & V5 & V6 & V7 & V8 & V9).
  do 6 bind_step H.
  break_if H.
  - apply Ok_pair_inv in H. destruct H as [<- <-].
    read_bounds. zbool. unfold wf_ctx in *. unfold views_in_bounds.
    cbn. pose proof view_ok_zero.
    split_all; try assumption; try reflexivity; try lia.
    left. split; [reflexivity | lia].
  - do 3 bind_step H. break_if H; [|discriminate].
    apply Ok_pair_inv in H. destruct H as [<- <-].
    read_bounds. read_bounds. unfold wf_ctx in *. unfold views_in_bounds.
    cbn.
    split_all; try assumption; try reflexivity; try lia.
    right. split_all; try assumption; lia.
Qed.

Lemma parse_2930_shape (ctx ctx' : parser_context_t)
    (tx_obj tx_obj' : eth_tx_t) :
  parse_2930 ctx tx_obj = Ok (tx_obj', ctx') ->
  wf_ctx ctx -> views_in_bounds tx_obj ->
  views_in_bounds tx_obj' /\
  (tx_type tx_obj' = tx_type tx_obj /\
   is_erc20_transfer tx_obj' = is_erc20_transfer tx_obj /\
   max_priority_fee_per_gas (tx tx_obj')
     = max_priority_fee_per_gas (tx tx_obj) /\
   max_fee_per_gas (tx tx_obj') = max_fee_per_gas (tx tx_obj)) /\
  offset ctx + 10 <= offset ctx' /\ offset ctx' = bufferLen ctx /\
  2 <= rlpLen (chainId tx_obj') <= 8 /\
  chain_id_allowed
    (be_value (firstn (Z.to_nat (rlpLen (chainId tx_obj')))
                 (ptr (chainId tx_obj')))) = true.
Proof.
  unfold parse_2930. intros H W V.
  unfold views_in_bounds in V.
  destruct V as (V0 & V1 & V2 & V3 & V4 & V5 & V6 & V7 & V8 & V9).
  do 8 bind_step H. break_if H; [discriminate|].
  apply Ok_pair_inv in H. destruct H as [<- <-].
  read_bounds. read_bounds. zbool. unfold wf_ctx in *.
  unfold views_in_bounds. cbn.
  split_all; try assumption; try reflexivity; try lia.
Qed.

Lemma parse_1559_shape (ctx ctx' : parser_context_t)
    (tx_obj tx_obj' : eth_tx_t) :
  parse_1559 ctx tx_obj = Ok (tx_obj', ctx') ->
  wf_ctx ctx -> views_in_bounds tx_obj ->
  views_in_bounds tx_obj' /\
  (tx_type tx_obj' = tx_type tx_obj /\
   is_erc20_transfer tx_obj' = is_erc20_transfer tx_obj /\
   gasPrice (tx tx_obj') = gasPrice (tx tx_obj)) /\
  offset ctx + 11 <= offset ctx' /\ offset ctx' = bufferLen ctx /\
  2 <= rlpLen (chainId tx_obj') <= 8 /\
  chain_id_allowed
    (be_value (firstn (Z.to_nat (rlpLen (chainId tx_obj')))
                 (ptr (chainId tx_obj')))) = true.
Proof.
  unfold parse_1559. intros H W V.
  unfold views_in_bounds in V.
  destruct V as (V0 & V1 & V2 & V3 & V4 & V5 & V6 & V7 & V8 & V9).
  do 9 bind_step H. break_if H; [discriminate|].
  apply Ok_pair_inv in H. destruct H as [<- <-].
  read_bounds. read_bounds. zbool. unfold wf_ctx in *.
  unfold views_in_bounds. cbn.
  split_all; try assumption; try reflexivity; try lia.
Qed.

Lemma views_in_bounds_zero (type : Z) :
  views_in_bounds (set_tx_type eth_tx_zero type).
Proof.
  unfold views_in_bounds. cbn. pose proof view_ok_zero.
  split_all; assumption.
Qed.

(** Everything a successful [decode] establishes, by type. *)
Lemma decode_full (buf : list byte) (tx_obj : eth_tx_t) :
  decode buf = Ok tx_obj ->
  let len := Z.of_nat (List.length buf) in
  let chain_allowed :=
    2 <= rlpLen (chainId tx_obj) <= 8 /\
    chain_id_allowed
      (be_value (firstn (Z.to_nat (rlpLen (chainId tx_obj)))
                   (ptr (chainId tx_obj)))) = true in
  views_in_bounds tx_obj /\ is_erc20_transfer tx_obj = false /\
  ((tx_type tx_obj = legacy /\ 192 <= deref buf 0 /\ 7 <= len /\
    max_priority_fee_per_gas (tx tx_obj) = rlp_zero /\
    max_fee_per_gas (tx tx_obj) = rlp_zero /\
    access_list (tx tx_obj) = rlp_zero /\
    (chainId tx_obj = mk_rlp RLP_KIND_BYTE NULL 0 \/
     (chain_allowed /\ 12 <= len))) \/
   (tx_type tx_obj = eip2930 /\ deref buf 0 = 1 /\ 12 <= len /\
    max_priority_fee_per_gas (tx tx_obj) = rlp_zero /\
    max_fee_per_gas (tx tx_obj) = rlp_zero /\ chain_allowed) \/
   (tx_type tx_obj = eip1559 /\ deref buf 0 = 2 /\ 13 <= len /\
    gasPrice (tx tx_obj) = rlp_zero /\ chain_allowed)).
Proof.
  intros H len chain_allowed. unfold decode in H.
  destruct (_readEth _) as [[tx_obj0 c]|e] eqn:E; [|discriminate].
  cbn [bind] in H. injection H as ->.
  unfold _readEth in E.
  bind_step E. bind_step E.
  break_if E; [discriminate|]. break_if E; [discriminate|].
  rename E0 into Ht, E1 into Hr.
  assert (W0 : wf_ctx (mk_ctx buf len 0)).
  { unfold wf_ctx, len. cbn. lia. }
  assert (Hp : (z = eip2930 /\ deref buf 0 = 1 /\ offset p = 1 \/
                z = eip1559 /\ deref buf 0 = 2 /\ offset p = 1 \/
                z = legacy /\ 192 <= deref buf 0 /\ offset p = 0) /\
               buffer p = buf /\ bufferLen p = len).
  { unfold readTxnType in Ht. cbn [bufferLen offset buffer] in Ht.
    break_if Ht; [discriminate|].
    unfold eip2930, eip1559, legacy in *.
    destruct (Z.eqb_spec (deref buf 0) 1) as [E1|E1];
      [|destruct (Z.eqb_spec (deref buf 0) 2) as [E2|E2]];
      cbn [orb] in Ht; try break_if Ht; try discriminate;
      apply Ok_pair_inv in Ht; destruct Ht as [<- <-]; zbool;
      cbn; intuition lia. }
  destruct Hp as (Hz & Hpb & Hpl).
  assert (W1 : wf_ctx p).
  { unfold wf_ctx. rewrite Hpb, Hpl. unfold len. intuition lia. }
  destruct (rlp_read_in_bounds _ _ _ Hr W1) as (W2 & Vl & Hc).
  destruct (rlp_read_inv _ _ _ Hr) as (_ & Hl2 & _ & Ho2 & _).
  assert (Hk : kind r <> RLP_KIND_BYTE).
  { destruct (rlp_kind_eqb_spec (kind r) RLP_KIND_LIST) as [Hk|Hk];
      [rewrite Hk; discriminate | discriminate]. }
  specialize (Hc Hk).
  assert (Wn : wf_ctx (mk_ctx (ptr r) (rlpLen r) 0)).
  { unfold wf_ctx, view_ok in *. cbn. lia. }
  pose proof (views_in_bounds_zero z) as Vz.
  cbn [tx_type set_tx_type] in E.
  repeat break_if E; try discriminate; bind_step E;
    apply Ok_pair_inv in E; destruct E as [<- <-]; zbool.
  - destruct (parse_1559_shape _ _ _ _ E0 Wn Vz)
      as (V & (T & F & G) & Hn & He & Hcl & Hca).
    cbn in T, F, G, Hn, He.
    split; [exact V|]. split; [exact F|]. right. right.
    destruct Hz as [[-> _] | [(_ & Hd & Hop) | [-> _]]]; try discriminate.
    fold rlp_zero in G. unfold chain_allowed.
    split_all; try assumption; try lia.
  - destruct (parse_2930_shape _ _ _ _ E0 Wn Vz)
      as (V & (T & F & G1 & G2) & Hn & He & Hcl & Hca).
    cbn in T, F, G1, G2, Hn, He.
    split; [exact V|]. split; [exact F|]. right. left.
    destruct Hz as [(_ & Hd & Hop) | [[-> _] | [-> _]]]; try discriminate.
    fold rlp_zero in G1, G2. unfold chain_allowed.
    split_all; try assumption; try lia.
  - destruct (parse_legacy_tx_shape _ _ _ _ E0 Wn Vz)
      as (V & (T & F & G1 & G2 & G3) & Hn & Hch).
    cbn in T, F, G1, G2, G3, Hn.
    split; [exact V|]. split; [exact F|]. left.
    destruct Hz as [[-> _] | [[-> _] | (_ & Hd & Hop)]]; try discriminate.
    fold rlp_zero in G1, G2, G3. unfold chain_allowed.
    split_all; try assumption; try lia.
    destruct Hch as [[Hc0 _] | (Hcl & Hn11 & Hca)].
    + left. exact Hc0.
    + right. cbn in Hn11. split_all; try assumption; lia.
Qed.

(** X1.  Every view of a decoded record lies inside the input: for each
    field, the payload length is not negative and does not exceed the bytes
    that remain behind its pointer. *)
Theorem decode_views_in_bounds (buf : list byte) (tx_obj : eth_tx_t) :
  decode buf = Ok tx_obj -> views_in_bounds tx_obj.
Proof.
  intros H. exact (proj1 (decode_full buf tx_obj H)).
Qed.

Lemma decode_views_in_bounds_witness :
  exists tx_obj, decode generic_1559 = Ok tx_obj /\ views_in_bounds tx_obj.
Proof.
  assert (Hd : exists t, decode generic_1559 = Ok t)
    by (eexists; vm_compute; reflexivity).
  destruct Hd as [t Hd]. exists t. split; [exact Hd|].
  exact (decode_views_in_bounds generic_1559 t Hd).
Defined.

(** X2.  The type of a decoded record follows the first byte of the input,
    the ERC-20 flag is clear, and the fields that the type does not carry
    are zero views: the two fee caps for legacy and EIP-2930, the access
    list for legacy, the gas price for EIP-1559. *)
Theorem decode_type_and_unused_fields (buf : list byte)
    (tx_obj : eth_tx_t) :
  decode buf = Ok tx_obj ->
  is_erc20_transfer tx_obj = false /\
  ((192 <= deref buf 0 /\ tx_type tx_obj = legacy /\
    max_priority_fee_per_gas (tx tx_obj) = rlp_zero /\
    max_fee_per_gas (tx tx_obj) = rlp_zero /\
    access_list (tx tx_obj) = rlp_zero) \/
   (deref buf 0 = 1 /\ tx_type tx_obj = eip2930 /\
    max_priority_fee_per_gas (tx tx_obj) = rlp_zero /\
    max_fee_per_gas (tx tx_obj) = rlp_zero) \/
   (deref buf 0 = 2 /\ tx_type tx_obj = eip1559 /\
    gasPrice (tx tx_obj) = rlp_zero)).
Proof.
  intros H. destruct (decode_full buf tx_obj H) as (_ & F & Hs).
  cbv zeta in Hs. split; [exact F|].
  destruct Hs as [Hs | [Hs | Hs]]; [left | right; left | right; right];
    intuition.
Qed.

Lemma decode_type_and_unused_fields_witness :
  exists tx_obj,
    decode generic_1559 = Ok tx_obj /\ tx_type tx_obj = eip1559 /\
    gasPrice (tx tx_obj) = rlp_zero.
Proof.
  assert (Hd : exists t, decode generic_1559 = Ok t)
    by (eexists; vm_compute; reflexivity).
  destruct Hd as [t Hd]. exists t. split; [exact Hd|].
  destruct (decode_type_and_unused_fields generic_1559 t Hd)
    as (_ & [(Hb & _) | [(Hb & _) | (_ & Ht & Hg)]]).
  - exfalso. vm_compute in Hb. apply Hb. reflexivity.
  - exfalso. vm_compute in Hb. discriminate Hb.
  - split; [exact Ht | exact Hg].
Defined.

(** X3.  Chain policy of [decode]: a typed record always carries a chain
    ID; a legacy record carries none (the zero-length null view) or one;
    a chain ID that is carried has 2 to 8 bytes and the value 3338, 9990 or
    2241. *)
Theorem decode_chain_policy (buf : list byte) (tx_obj : eth_tx_t) :
  decode buf = Ok tx_obj ->
  let c := be_value (firstn (Z.to_nat (rlpLen (chainId tx_obj)))
                       (ptr (chainId tx_obj))) in
  (tx_type tx_obj = legacy /\ chainId tx_obj = mk_rlp RLP_KIND_BYTE NULL 0)
  \/ (2 <= rlpLen (chainId tx_obj) <= 8 /\
      (c = 3338 \/ c = 9990 \/ c = 2241)).
Proof.
  intros H c. destruct (decode_full buf tx_obj H) as (_ & _ & Hs).
  cbv zeta in Hs. fold c in Hs.
  destruct Hs as [(Ht & _ & _ & _ & _ & _ & [Hz | [[Hl Ha] _]])
                 | [(_ & _ & _ & _ & _ & Hl & Ha)
                   | (_ & _ & _ & _ & Hl & Ha)]].
  - left. split; assumption.
  - right. split; [exact Hl | apply chain_id_allowed_iff; exact Ha].
  - right. split; [exact Hl | apply chain_id_allowed_iff; exact Ha].
  - right. split; [exact Hl | apply chain_id_allowed_iff; exact Ha].
Qed.

Lemma decode_chain_policy_witness :
  exists tx_obj,
    decode generic_1559 = Ok tx_obj /\
    2 <= rlpLen (chainId tx_obj) <= 8 /\
    be_value (firstn (Z.to_nat (rlpLen (chainId tx_obj)))
                (ptr (chainId tx_obj))) = 3338.
Proof.
  eexists. split; [vm_compute; reflexivity|].
  lazymatch goal with
  | |- context [chainId ?t] =>
      destruct (decode_chain_policy generic_1559 t
                  ltac:(vm_compute; reflexivity)) as [[Ht _] | [Hl _]]
  end.
  - discriminate Ht.
  - split; [exact Hl | reflexivity].
Defined.

(** X4.  [decode] rejects short inputs: a success needs at least 7 bytes,
    at least 12 bytes when a chain ID is carried or the type is EIP-2930,
    and at least 13 bytes when the type is EIP-1559. *)
Theorem decode_needs_length (buf : list byte) (tx_obj : eth_tx_t) :
  decode buf = Ok tx_obj ->
  let len := Z.of_nat (List.length buf) in
  7 <= len /\
  (rlpLen (chainId tx_obj) <> 0 -> 12 <= len) /\
  (tx_type tx_obj = eip2930 -> 12 <= len) /\
  (tx_type tx_obj = eip1559 -> 13 <= len).
Proof.
  intros H len. destruct (decode_full buf tx_obj H) as (_ & _ & Hs).
  cbv zeta in Hs. fold len in Hs.
  destruct Hs as [(Ht & _ & Hn & _ & _ & _ & [Hz | [_ Hn12]])
                 | [(Ht & _ & Hn & _) | (Ht & _ & Hn & _)]];
    rewrite Ht; unfold legacy, eip2930, eip1559;
    split_all; intros; try discriminate; try lia.
  rewrite Hz in *. cbn in *. contradiction.
Qed.

Lemma decode_needs_length_witness :
  exists tx_obj,
    decode legacy_empty_to_and_data = Ok tx_obj /\
    7 <= Z.of_nat (List.length legacy_empty_to_and_data).
Proof.
  assert (Hd : exists t, decode legacy_empty_to_and_data = Ok t)
    by (eexists; vm_compute; reflexivity).
  destruct Hd as [t Hd]. exists t. split; [exact Hd|].
  exact (proj1 (decode_needs_length legacy_empty_to_and_data t Hd)).
Defined.

(** X5.  A typed body that succeeds has consumed its payload to the last
    byte: after [parse_2930] or [parse_1559] the cursor equals the length of
    the context, so nothing follows the access list. *)
Theorem typed_body_consumes_payload (ctx ctx' : parser_context_t)
    (tx_obj tx_obj' : eth_tx_t) :
  wf_ctx ctx ->
  parse_2930 ctx tx_obj = Ok (tx_obj', ctx') \/
  parse_1559 ctx tx_obj = Ok (tx_obj', ctx') ->
  offset ctx' = bufferLen ctx /\ bufferLen ctx' = bufferLen ctx.
Proof.
  intros W [H | H].
  - unfold parse_2930 in H. do 8 bind_step H. break_if H; [discriminate|].
    apply Ok_pair_inv in H. destruct H as [_ <-].
    read_bounds. read_bounds. zbool. lia.
  - unfold parse_1559 in H. do 9 bind_step H. break_if H; [discriminate|].
    apply Ok_pair_inv in H. destruct H as [_ <-].
    read_bounds. read_bounds. zbool. lia.
Qed.

Lemma typed_body_consumes_payload_witness :
  exists tx_obj' ctx',
    parse_2930
      (mk_ctx [x82; x0d; x0a; x80; x80; x80; x80; x80; x80; xc0] 10 0)
      eth_tx_zero = Ok (tx_obj', ctx') /\
    offset ctx' = 10.
Proof.
  assert (Hd : exists r,
    parse_2930
      (mk_ctx [x82; x0d; x0a; x80; x80; x80; x80; x80; x80; xc0] 10 0)
      eth_tx_zero = Ok r) by (eexists; vm_compute; reflexivity).
  destruct Hd as [[t c] Hd]. exists t, c. split; [exact Hd|].
  refine (proj1 (typed_body_consumes_payload _ _ _ _ _ (or_introl Hd))).
  unfold wf_ctx. cbn. lia.
Defined.



(** ** Display *)

(** The two [switch] statements of the display, seen from outside: a
    selector at or above the number of cases takes the default. *)
Lemma switch9_default {A : Type} (a0 a1 a2 a3 a4 a5 a6 a7 a8 dflt : A)
    (d : Z) :
  9 <= d ->
  match d with
  | 0 => a0 | 1 => a1 | 2 => a2 | 3 => a3 | 4 => a4 | 5 => a5 | 6 => a6
  | 7 => a7 | 8 => a8 | _ => dflt
  end = dflt.
Proof.
  intros H. destruct d as [|p|p]; [lia| |reflexivity].
  do 4 (try destruct p as [p|p|]); try reflexivity; lia.
Qed.

Lemma switch11_default {A : Type}
    (a0 a1 a2 a3 a4 a5 a6 a7 a8 a9 a10 dflt : A) (d : Z) :
  11 <= d ->
  match d with
  | 0 => a0 | 1 => a1 | 2 => a2 | 3 => a3 | 4 => a4 | 5 => a5 | 6 => a6
  | 7 => a7 | 8 => a8 | 9 => a9 | 10 => a10 | _ => dflt
  end = dflt.
Proof.
  intros H. destruct d as [|p|p]; [lia| |reflexivity].
  do 4 (try destruct p as [p|p|]); try reflexivity; lia.
Qed.

Lemma uint8_small (n : Z) : 0 <= n < 256 -> uint8 n = n.
Proof.
  intros H. unfold uint8. apply Z.mod_small. exact H.
Qed.

(** Case analysis on the conditions of the index arithmetic, innermost
    comparison first. *)
Ltac leb_step :=
  match goal with
  | |- context [?a <=? ?b] =>
      lazymatch b with
      | context [if _ then _ else _] => fail
      | _ => destruct (Z.leb_spec a b)
      end
  end; cbn [andb orb negb].

Ltac shape_cases tx_obj :=
  destruct (rlpLen (data (tx tx_obj)) =? 0) eqn:?;
  destruct (rlpLen (to (tx tx_obj)) =? 0) eqn:?;
  destruct (tx_type tx_obj =? eip1559) eqn:?;
  destruct (tx_type tx_obj =? legacy) eqn:?;
  destruct (tx_type tx_obj =? eip2930) eqn:?;
  cbn [andb orb negb]; zbool; unfold eip1559, legacy, eip2930 in *;
  try lia.

Ltac mod256 := unfold uint8 in *; Z.div_mod_to_equations; lia.

(** Below the wrap-around the byte arithmetic is plain addition. *)
Ltac no_wrap :=
  repeat match goal with
         | |- context [uint8 ?n] =>
             lazymatch n with
             | context [uint8 _] => fail
             | _ => rewrite (uint8_small n) by lia
             end
         end.

(** Out of the served range and below the wrap-around, every index is out
    of range, whatever the record holds. *)
Lemma printGeneric_high {R : Renderers} (tx_obj : eth_tx_t)
    (outValLen pageIdx idx : Z) :
  9 <= idx <= 252 ->
  printGeneric tx_obj outValLen pageIdx idx
  = (parser_display_page_out_of_range, EmptyString).
Proof.
  intros H. unfold printGeneric. cbv zeta.
  shape_cases tx_obj; repeat (no_wrap; leb_step); no_wrap;
    apply switch9_default; lia.
Qed.

Lemma printERC20Transfer_high {R : Renderers} (tx_obj : eth_tx_t)
    (outValLen pageIdx idx : Z) :
  11 <= idx <= 252 ->
  printERC20Transfer tx_obj outValLen pageIdx idx
  = (parser_display_page_out_of_range, EmptyString).
Proof.
  intros H. unfold printERC20Transfer. cbv zeta.
  shape_cases tx_obj; repeat (no_wrap; leb_step); no_wrap;
    apply switch11_default; lia.
Qed.

(** X7.  Validation and display agree.  [_validateTxEth] succeeds exactly
    for a record of ERC-20 shape or in expert mode and fails with
    [unsupported_tx] otherwise; it stores the shape in the flag.  After a
    success [_getItemEth] serves every index through the ERC-20 display or
    the generic display according to the shape; after a failure its status
    is [unsupported_tx] at every index.  [_getNumItemsEth] leaves a
    validated record as it is. *)
Theorem validate_then_getItem {R : Renderers} (expert : bool)
    (tx_obj : eth_tx_t) (outValLen pageIdx idx : Z) :
  let st := fst (_validateTxEth expert tx_obj) in
  let tx' := snd (_validateTxEth expert tx_obj) in
  tx' = set_is_erc20_transfer tx_obj (is_erc20_shape tx_obj) /\
  (st = parser_ok <-> is_erc20_shape tx_obj = true \/ expert = true) /\
  (st = parser_ok ->
   _getItemEth tx' outValLen pageIdx expert idx =
   if is_erc20_shape tx_obj
   then printERC20Transfer tx' outValLen pageIdx idx
   else printGeneric tx' outValLen pageIdx idx) /\
  (st <> parser_ok ->
   st = parser_unsupported_tx /\
   fst (_getItemEth tx' outValLen pageIdx expert idx)
   = parser_unsupported_tx) /\
  snd (_getNumItemsEth tx') = tx'.
Proof.
  intros st tx'.
  assert (Hv : _validateTxEth expert tx_obj =
               (if negb (is_erc20_shape tx_obj) && negb expert
                then parser_unsupported_tx else parser_ok,
                set_is_erc20_transfer tx_obj (is_erc20_shape tx_obj))).
  { unfold _validateTxEth, validateERC20.
    destruct (negb (is_erc20_shape tx_obj) && negb expert); reflexivity. }
  subst st tx'. rewrite Hv. cbn [fst snd].
  assert (Hn : snd (_getNumItemsEth
                      (set_is_erc20_transfer tx_obj (is_erc20_shape tx_obj)))
               = set_is_erc20_transfer tx_obj (is_erc20_shape tx_obj)).
  { unfold _getNumItemsEth, validateERC20.
    change (is_erc20_shape (set_is_erc20_transfer tx_obj
                              (is_erc20_shape tx_obj)))
      with (is_erc20_shape tx_obj).
    destruct (is_erc20_shape tx_obj); [destruct (_ || _)|]; reflexivity. }
  unfold _getItemEth. cbn [is_erc20_transfer set_is_erc20_transfer].
  destruct (is_erc20_shape tx_obj) eqn:Es; destruct expert;
    cbn [negb andb];
    split_all; try reflexivity; try exact Hn; try tauto; try discriminate;
    try (split; intros; auto; discriminate);
    try (intros Hc; exfalso; apply Hc; reflexivity).
  split; [discriminate | intros [? | ?]; discriminate].
Qed.

(** X8.  Between the last item and the wrap-around of the byte index the
    display is out of range for every record: the ERC-20 display at the
    indices 11 to 252, the generic display at the indices 9 to 252. *)
Theorem getItem_out_of_range {R : Renderers} (tx_obj : eth_tx_t)
    (outValLen pageIdx idx : Z) :
  (is_erc20_transfer tx_obj = true -> 11 <= idx <= 252 ->
   forall expert,
     _getItemEth tx_obj outValLen pageIdx expert idx
     = (parser_display_page_out_of_range, EmptyString)) /\
  (is_erc20_transfer tx_obj = false -> 9 <= idx <= 252 ->
   _getItemEth tx_obj outValLen pageIdx true idx
   = (parser_display_page_out_of_range, EmptyString)).
Proof.
  unfold _getItemEth. split.
  - intros -> H expert. apply printERC20Transfer_high. exact H.
  - intros -> H. apply printGeneric_high. exact H.
Qed.

Lemma getItem_out_of_range_witness :
  @_getItemEth renderers_ok eth_tx_zero 64 0 true 100
  = (parser_display_page_out_of_range, EmptyString).
Proof.
  apply (@getItem_out_of_range renderers_ok eth_tx_zero 64 0 100).
  - reflexivity.
  - lia.
Defined.

(** X9.  The byte index wraps: for every record of one of the three types,
    one of the indices 253, 254, 255 is served as index 0, with the key
    Receiver by the ERC-20 display and the key To by the generic display. *)
Theorem getItem_index_wraps {R : Renderers} (tx_obj : eth_tx_t)
    (outValLen pageIdx : Z) :
  tx_type tx_obj = legacy \/ tx_type tx_obj = eip2930 \/
  tx_type tx_obj = eip1559 ->
  (exists idx, 253 <= idx <= 255 /\
     snd (printERC20Transfer tx_obj outValLen pageIdx idx)
     = "Receiver"%string) /\
  (exists idx, 253 <= idx <= 255 /\
     snd (printGeneric tx_obj outValLen pageIdx idx) = "To"%string).
Proof.
  intros Hty. unfold printERC20Transfer, printGeneric. cbv zeta. split.
  - destruct Hty as [E | [E | E]]; rewrite E.
    + exists 254. split; [lia | reflexivity].
    + exists 254. split; [lia | reflexivity].
    + exists 255. split; [lia | reflexivity].
  - destruct (rlpLen (data (tx tx_obj)) =? 0) eqn:Ed;
      destruct (rlpLen (to (tx tx_obj)) =? 0) eqn:Eo;
      destruct Hty as [E | [E | E]]; rewrite E;
      first [ exists 253; split; [lia | reflexivity]
            | exists 254; split; [lia | reflexivity]
            | exists 255; split; [lia | reflexivity] ].
Qed.

Lemma getItem_index_wraps_witness :
  (exists idx, 253 <= idx <= 255 /\
     snd (@printERC20Transfer renderers_ok
            (set_tx_type eth_tx_zero legacy) 64 0 idx) = "Receiver"%string) /\
  (exists idx, 253 <= idx <= 255 /\
     snd (@printGeneric renderers_ok
            (set_tx_type eth_tx_zero legacy) 64 0 idx) = "To"%string).
Proof.
  apply (@getItem_index_wraps renderers_ok (set_tx_type eth_tx_zero legacy)).
  left. reflexivity.
Defined.

Lemma validate_then_getItem_witness :
  fst (@_getItemEth renderers_ok (snd (_validateTxEth false eth_tx_zero))
         64 0 false 0)
  = parser_unsupported_tx.
Proof.
  destruct (@validate_then_getItem renderers_ok false eth_tx_zero 64 0 0)
    as (_ & _ & _ & H & _).
  apply H. cbn. discriminate.
Defined.

(** The selector of a [switch], named so that its cases can be told
    apart. *)
Ltac name_selector d Hd :=
  match goal with
  | |- context [match ?D with Z0 => _ | Zpos _ => _ | Zneg _ => _ end] =>
      remember D as d eqn:Hd
  end.

Ltac selector_cases d :=
  destruct d as [|d|d]; [| do 4 (try destruct d as [d|d|]) |];
  cbn [snd fst printEthHash].

(** X10.  The display keeps the fee fields of the other envelope out: at
    every byte index, a legacy or EIP-2930 record never yields the keys
    Max Priority Fee and Max Fee, and an EIP-1559 record never yields the
    key Gas price, in the ERC-20 display and in the generic one. *)
Theorem getItem_keys_respect_type {R : Renderers} (tx_obj : eth_tx_t)
    (outValLen pageIdx idx : Z) (expert : bool) :
  0 <= idx <= 255 ->
  let k := snd (_getItemEth tx_obj outValLen pageIdx expert idx) in
  (tx_type tx_obj = legacy \/ tx_type tx_obj = eip2930 ->
   k <> "Max Priority Fee"%string /\ k <> "Max Fee"%string) /\
  (tx_type tx_obj = eip1559 -> k <> "Gas price"%string).
Proof.
  intros Hidx k. subst k. unfold _getItemEth.
  destruct (is_erc20_transfer tx_obj);
    [| destruct expert; [| cbn [snd]; repeat split; discriminate]].
  - unfold printERC20Transfer. cbv zeta. split.
    + intros Hty. shape_cases tx_obj; repeat leb_step;
        name_selector d Hd;
        assert (d <> 4 /\ d <> 5) as [? ?] by mod256;
        selector_cases d; split; first [discriminate | lia].
    + intros Hty. shape_cases tx_obj; repeat leb_step;
        name_selector d Hd;
        assert (d <> 7) by mod256;
        selector_cases d; first [discriminate | lia].
  - unfold printGeneric. cbv zeta. split.
    + intros Hty. shape_cases tx_obj; repeat leb_step;
        name_selector d Hd;
        assert (d <> 3 /\ d <> 4) as [? ?] by mod256;
        selector_cases d; split; first [discriminate | lia].
    + intros Hty. shape_cases tx_obj; repeat leb_step;
        name_selector d Hd;
        assert (d <> 6) by mod256;
        selector_cases d; first [discriminate | lia].
Qed.

Lemma getItem_keys_respect_type_witness :
  snd (@_getItemEth renderers_ok (set_tx_type eth_tx_zero eip1559) 64 0
         true 5) <> "Gas price"%string.
Proof.
  refine (proj2 (@getItem_keys_respect_type renderers_ok
                   (set_tx_type eth_tx_zero eip1559) 64 0 5 true _) eq_refl).
  lia.
Defined.

(** X11.  The ERC-20 display and its count.  For a validated record of
    ERC-20 shape, [_getNumItemsEth] returns the number of keys of the
    sequence Receiver, Contract, Amount, Nonce, then Max Priority Fee, Max
    Fee, Gas limit for EIP-1559 or Gas limit, Gas price for legacy and
    EIP-2930, then Value, Data, Eth-Hash; [_getItemEth] yields these keys
    in this order at the indices below the count, and is out of range at
    the count. *)
Theorem erc20_display_sequence {R : Renderers} (tx_obj : eth_tx_t)
    (outValLen pageIdx : Z) (expert : bool) :
  tx_type tx_obj = legacy \/ tx_type tx_obj = eip2930 \/
  tx_type tx_obj = eip1559 ->
  is_erc20_shape tx_obj = true -> is_erc20_transfer tx_obj = true ->
  let keys :=
    (["Receiver"%string; "Contract"%string; "Amount"%string;
      "Nonce"%string]
     ++ (if tx_type tx_obj =? eip1559
         then ["Max Priority Fee"%string; "Max Fee"%string;
               "Gas limit"%string]
         else ["Gas limit"%string; "Gas price"%string])
     ++ ["Value"%string; "Data"%string; "Eth-Hash"%string]) in
  let n := Z.of_nat (List.length keys) in
  _getNumItemsEth tx_obj = (parser_ok, n, tx_obj) /\
  map (fun i => snd (_getItemEth tx_obj outValLen pageIdx expert
                       (Z.of_nat i)))
      (seq 0 (List.length keys)) = keys /\
  _getItemEth tx_obj outValLen pageIdx expert n
  = (parser_display_page_out_of_range, EmptyString).
Proof.
  intros Hty Hs Hf keys n. subst n keys.
  unfold _getNumItemsEth, validateERC20, _getItemEth, printERC20Transfer.
  rewrite Hs, Hf.
  destruct tx_obj as [ty ch t f].
  cbn [tx_type tx is_erc20_transfer set_is_erc20_transfer] in *. subst f.
  destruct Hty as [E | [E | E]]; rewrite E; repeat split.
Qed.

Lemma erc20_display_sequence_witness :
  exists tx_obj,
    decode erc20_1559 = Ok tx_obj /\
    let tx' := snd (_validateTxEth false tx_obj) in
    _getNumItemsEth tx' = (parser_ok, 10, tx') /\
    map (fun i => snd (@_getItemEth renderers_ok tx' 64 0 false
                         (Z.of_nat i))) (seq 0 10)
    = ["Receiver"%string; "Contract"%string; "Amount"%string;
       "Nonce"%string; "Max Priority Fee"%string; "Max Fee"%string;
       "Gas limit"%string; "Value"%string; "Data"%string;
       "Eth-Hash"%string] /\
    @_getItemEth renderers_ok tx' 64 0 false 10
    = (parser_display_page_out_of_range, EmptyString).
Proof.
  eexists. split; [vm_compute; reflexivity|].
  cbv zeta.
  lazymatch goal with
  | |- _getNumItemsEth ?t = _ /\ _ =>
      exact (@erc20_display_sequence renderers_ok t 64 0 false
               (or_intror (or_intror eq_refl)) eq_refl eq_refl)
  end.
Defined.

(** X12.  The generic display and its count for untyped transactions.  For
    a legacy or EIP-2930 record that is not of ERC-20 shape and has a
    recipient or data, in expert mode, [_getNumItemsEth] returns the number
    of keys of the sequence To (if the recipient is not empty), Value, Data
    (if the data is not empty), Gas limit, Gas price, Nonce, Eth-Hash;
    [_getItemEth] yields these keys in this order at the indices below the
    count, and is out of range at the count. *)
Theorem generic_display_sequence_untyped {R : Renderers}
    (tx_obj : eth_tx_t) (outValLen pageIdx : Z) :
  tx_type tx_obj = legacy \/ tx_type tx_obj = eip2930 ->
  is_erc20_shape tx_obj = false -> is_erc20_transfer tx_obj = false ->
  rlpLen (to (tx tx_obj)) <> 0 \/ rlpLen (data (tx tx_obj)) <> 0 ->
  let keys :=
    ((if rlpLen (to (tx tx_obj)) =? 0 then [] else ["To"%string])
     ++ ["Value"%string]
     ++ (if rlpLen (data (tx tx_obj)) =? 0 then [] else ["Data"%string])
     ++ ["Gas limit"%string; "Gas price"%string; "Nonce"%string;
         "Eth-Hash"%string]) in
  let n := Z.of_nat (List.length keys) in
  _getNumItemsEth tx_obj = (parser_ok, n, tx_obj) /\
  map (fun i => snd (_getItemEth tx_obj outValLen pageIdx true
                       (Z.of_nat i)))
      (seq 0 (List.length keys)) = keys /\
  _getItemEth tx_obj outValLen pageIdx true n
  = (parser_display_page_out_of_range, EmptyString).
Proof.
  intros Hty Hs Hf Hne keys n. subst n keys.
  unfold _getNumItemsEth, validateERC20, _getItemEth, printGeneric.
  rewrite Hs, Hf.
  destruct tx_obj as [ty ch t f].
  cbn [tx_type tx is_erc20_transfer set_is_erc20_transfer] in *. subst f.
  destruct (Z.eqb_spec (rlpLen (to t)) 0) as [Eo|Eo];
    destruct (Z.eqb_spec (rlpLen (data t)) 0) as [Ed|Ed];
    try (exfalso; destruct Hne; contradiction);
    destruct Hty as [E | E]; rewrite E; repeat split.
Qed.

Lemma generic_display_sequence_untyped_witness :
  exists tx_obj,
    decode legacy_plain_transfer = Ok tx_obj /\
    _getNumItemsEth tx_obj = (parser_ok, 6, tx_obj) /\
    map (fun i => snd (@_getItemEth renderers_ok tx_obj 64 0 true
                         (Z.of_nat i))) (seq 0 6)
    = ["To"%string; "Value"%string; "Gas limit"%string;
       "Gas price"%string; "Nonce"%string; "Eth-Hash"%string] /\
    @_getItemEth renderers_ok tx_obj 64 0 true 6
    = (parser_display_page_out_of_range, EmptyString).
Proof.
  eexists. split; [vm_compute; reflexivity|].
  lazymatch goal with
  | |- _getNumItemsEth ?t = _ /\ _ =>
      refine (@generic_display_sequence_untyped renderers_ok t 64 0
                (or_introl eq_refl) eq_refl eq_refl (or_introl _))
  end.
  cbn. discriminate.
Defined.

(** ** Recovery byte after decoding *)

Lemma parity_of_range (info : Z) : parity_of info = 0 \/ parity_of info = 1.
Proof.
  unfold parity_of. destruct (_ =? 1); [right | left]; reflexivity.
Qed.

(** Past the guard on its pointers, [_computeV] fails exactly when the
    type is neither EIP-2930 nor EIP-1559 and the chain ID has more than 8
    bytes; every byte it delivers lies between 0 and 255. *)
Lemma _computeV_body_byte_or_error (eth_tx_obj tx_obj : eth_tx_t)
    (info : Z) :
  let typed := (uint8 (tx_type eth_tx_obj) =? eip2930)
               || (uint8 (tx_type eth_tx_obj) =? eip1559) in
  (typed = false /\ 8 < rlpLen (chainId tx_obj) /\
   _computeV eth_tx_obj tx_obj info = Err parser_unexpected_error) \/
  ((typed = true \/ rlpLen (chainId tx_obj) <= 8) /\
   exists v, _computeV eth_tx_obj tx_obj info = Ok v /\ 0 <= v <= 255).
Proof.
  intros typed. unfold _computeV. fold typed.
  destruct (parity_of_range info) as [-> | ->];
    (destruct typed;
     [ right; split; [left; reflexivity|]; eexists; split;
       [reflexivity | lia] |]);
    (destruct (Z.eqb_spec (rlpLen (chainId tx_obj)) 0) as [E0|E0];
     [ right; split; [right; lia|]; eexists; split;
       [reflexivity | cbn; lia] |]);
    unfold be_bytes_to_u64;
    (destruct (Z.ltb_spec 8 (rlpLen (chainId tx_obj))) as [E8|E8];
     [ left; split_all; [reflexivity | lia | reflexivity]
     | right; split; [right; lia|]; eexists; split;
       [reflexivity | unfold uint8;
        match goal with
        | |- 0 <= ?x mod 256 <= 255 =>
            pose proof (Z.mod_pos_bound x 256 ltac:(lia)); lia
        end ] ]).
Qed.

(** X13.  A call of [_computeV] fails exactly when [ctx], [tx_obj] or [v]
    is null, or when the type is neither EIP-2930 nor EIP-1559 and the
    chain ID of [tx_obj] has more than 8 bytes; its only error is
    [unexpected_error], and every byte it delivers lies between 0 and 255,
    whatever the parity hint. *)
Theorem _computeV_call_byte_or_error (eth_tx_obj : eth_tx_t)
    (ctx : option parser_context_t) (tx_obj : option eth_tx_t) (info : Z)
    (v : option Z) :
  let r := _computeV_call eth_tx_obj ctx tx_obj info v in
  let typed := (uint8 (tx_type eth_tx_obj) =? eip2930)
               || (uint8 (tx_type eth_tx_obj) =? eip1559) in
  (r = Err parser_unexpected_error <->
   ctx = None \/ tx_obj = None \/ v = None \/
   (typed = false /\
    exists t, tx_obj = Some t /\ 8 < rlpLen (chainId t))) /\
  (forall e, r = Err e -> e = parser_unexpected_error) /\
  (forall b, r = Ok b -> 0 <= b <= 255).
Proof.
  intros r typed. subst r. unfold _computeV_call.
  destruct ctx as [c|];
    [| split; [split; auto | split; intros ? H; inversion H; reflexivity]].
  destruct tx_obj as [t|];
    [| split; [split; auto | split; intros ? H; inversion H; reflexivity]].
  destruct v as [b0|];
    [| split; [split; auto | split; intros ? H; inversion H; reflexivity]].
  pose proof (_computeV_body_byte_or_error eth_tx_obj t info) as Hb.
  cbv zeta in Hb. fold typed in Hb.
  destruct Hb as [(Ht & Hl & He) | (Hc & b & Hk & Hr)].
  - rewrite He. split; [|split].
    + split; [intros _ | reflexivity].
      right. right. right. split; [exact Ht|]. exists t. auto.
    + intros e H. inversion H. reflexivity.
    + intros b H. discriminate H.
  - rewrite Hk. split; [|split].
    + split; [discriminate|].
      intros [H | [H | [H | (Ht & t' & Hs & Hl)]]]; try discriminate.
      exfalso. inversion Hs. subst t'.
      destruct Hc as [Hc | Hc]; [congruence | lia].
    + intros e H. discriminate H.
    + intros b' H. inversion H. subst b'. exact Hr.
Qed.

Lemma _computeV_call_byte_or_error_witness :
  _computeV_call eth_tx_zero None (Some eth_tx_zero) 0 (Some 0)
  = Err parser_unexpected_error.
Proof.
  apply (_computeV_call_byte_or_error eth_tx_zero None (Some eth_tx_zero) 0
           (Some 0)).
  left. reflexivity.
Defined.

(** X14.  After a successful [decode], [_computeV] on the decoded record
    never fails, and the byte is fixed by type, chain and parity p: p for
    EIP-2930 and EIP-1559; for legacy, 27 + p without chain ID, 55 + p on
    chain 3338, 47 + p on chain 9990 and 165 + p on chain 2241. *)
Theorem decode_then_computeV (buf : list byte) (tx_obj : eth_tx_t)
    (info : Z) :
  decode buf = Ok tx_obj ->
  let p := parity_of info in
  let c := be_value (firstn (Z.to_nat (rlpLen (chainId tx_obj)))
                       (ptr (chainId tx_obj))) in
  exists v,
    _computeV tx_obj tx_obj info = Ok v /\
    ((tx_type tx_obj <> legacy /\ v = p) \/
     (tx_type tx_obj = legacy /\
      ((rlpLen (chainId tx_obj) = 0 /\ v = 27 + p) \/
       (c = 3338 /\ v = 55 + p) \/ (c = 9990 /\ v = 47 + p) \/
       (c = 2241 /\ v = 165 + p)))).
Proof.
  intros H p c. destruct (decode_full buf tx_obj H) as (_ & _ & Hs).
  cbv zeta in Hs. fold c in Hs. unfold _computeV. fold p.
  pose proof (parity_of_range info) as Hp. fold p in Hp.
  destruct Hs as [(Ht & _ & _ & _ & _ & _ & Hc)
                 | [(Ht & _) | (Ht & _)]]; rewrite Ht.
  - change ((uint8 legacy =? eip2930) || (uint8 legacy =? eip1559))
      with false. cbv iota.
    destruct Hc as [Hz | [[Hl Ha] _]].
    + rewrite Hz. cbn [rlpLen Z.eqb]. eexists. split; [reflexivity|].
      right. split; [reflexivity|]. left. split; [reflexivity|].
      unfold uint8. destruct Hp as [-> | ->]; reflexivity.
    + destruct (Z.eqb_spec (rlpLen (chainId tx_obj)) 0); [lia|].
      unfold be_bytes_to_u64.
      destruct (Z.ltb_spec 8 (rlpLen (chainId tx_obj))); [lia|].
      cbn [bind]. fold c. eexists. split; [reflexivity|].
      right. split; [reflexivity|]. right.
      apply chain_id_allowed_iff in Ha. fold c in Ha.
      destruct Ha as [-> | [-> | ->]]; destruct Hp as [-> | ->];
        vm_compute; auto 6.
  - eexists. split; [reflexivity|]. left. split; [discriminate | reflexivity].
  - eexists. split; [reflexivity|]. left. split; [discriminate | reflexivity].
Qed.

Lemma decode_then_computeV_witness :
  exists tx_obj v,
    decode generic_1559 = Ok tx_obj /\
    _computeV tx_obj tx_obj 1 = Ok v /\ v = 1.
Proof.
  assert (Hd : exists t, decode generic_1559 = Ok t /\ tx_type t = eip1559)
    by (eexists; split; vm_compute; reflexivity).
  destruct Hd as (t & Hd & Ht).
  destruct (decode_then_computeV generic_1559 t 1 Hd)
    as (v & Hv & [[_ Hp] | [Hl _]]).
  - exists t, v. split; [exact Hd|]. split; [exact Hv | exact Hp].
  - exfalso. rewrite Ht in Hl. discriminate Hl.
Defined.

(** ** Chain IDs with leading zeros *)

Lemma be_value_from_zeros (k : nat) (bs : list byte) (acc : Z) :
  fold_left (fun a b => a * 256 + u8 b) (repeat x00 k ++ bs) acc
  = fold_left (fun a b => a * 256 + u8 b) bs (acc * 256 ^ Z.of_nat k).
Proof.
  revert acc. induction k as [|k IH]; intros acc.
  - cbn [repeat app]. f_equal. change (256 ^ Z.of_nat 0) with 1. lia.
  - cbn [repeat app fold_left]. rewrite IH. f_equal.
    change (u8 x00) with 0. rewrite Nat2Z.inj_succ, Z.pow_succ_r by lia.
    lia.
Qed.

Lemma be_value_leading_zeros (k : nat) (bs : list byte) :
  be_value (repeat x00 k ++ bs) = be_value bs.
Proof.
  unfold be_value. rewrite be_value_from_zeros. reflexivity.
Qed.

(** X15.  The chain-ID reader compares values, not encodings: an item of 2
    to 8 payload bytes that is an allowed chain ID preceded by any number
    of zero bytes is accepted. *)
Theorem readChainID_ignores_leading_zeros (ctx ctx1 : parser_context_t)
    (chainId : rlp_t) (k : nat) (bs : list byte) :
  rlp_read ctx = Ok (chainId, ctx1) ->
  2 <= rlpLen chainId <= 8 ->
  firstn (Z.to_nat (rlpLen chainId)) (ptr chainId) = repeat x00 k ++ bs ->
  be_value bs = 3338 \/ be_value bs = 9990 \/ be_value bs = 2241 ->
  readChainID ctx = Ok (chainId, ctx1).
Proof.
  intros Hr Hl Hb Ha.
  rewrite (readChainID_unfold _ _ _ Hr).
  destruct (Z.ltb_spec 8 (rlpLen chainId)); [lia|].
  destruct (Z.leb_spec (rlpLen chainId) 1); [lia|].
  cbn [orb andb]. rewrite Hb, be_value_leading_zeros.
  apply chain_id_allowed_iff in Ha. rewrite Ha. reflexivity.
Qed.

Lemma readChainID_ignores_leading_zeros_witness :
  readChainID (mk_ctx [x84; x00; x00; x0d; x0a] 5 0)
  = Ok (mk_rlp RLP_KIND_STRING [x00; x00; x0d; x0a] 4,
        mk_ctx [x84; x00; x00; x0d; x0a] 5 5).
Proof.
  apply (readChainID_ignores_leading_zeros _ _ _ 2%nat [x0d; x0a]).
  - reflexivity.
  - cbn. lia.
  - reflexivity.
  - left. reflexivity.
Defined.

(** ** Address and signing *)

(** X16.  [crypto_fillAddress] has two outcomes.  A buffer shorter than
    the public key plus the longest address is refused with
    [zxerr_unknown] and nothing is written.  Any other call succeeds: the
    buffer is zeroed over its whole length, no key and no address being
    written into it, and the response length is the key length plus 20.
    The encoder always answers 20, so the branch for an encoding failure is
    never taken. *)
Theorem crypto_fillAddress_outcome (PK_LEN_25519 SS58_ADDRESS_MAX_LEN : Z)
    (zxerr_encoding_failed : zxerr_t) (buffer : list byte)
    (bufferLen addrResponseLen : Z) :
  let r := crypto_fillAddress PK_LEN_25519 SS58_ADDRESS_MAX_LEN
             zxerr_encoding_failed buffer bufferLen addrResponseLen in
  (bufferLen < PK_LEN_25519 + SS58_ADDRESS_MAX_LEN ->
   r = (zxerr_unknown, buffer, addrResponseLen)) /\
  (PK_LEN_25519 + SS58_ADDRESS_MAX_LEN <= bufferLen ->
   r = (zxerr_ok, MEMZERO buffer (Z.to_nat bufferLen),
        uint16 (PK_LEN_25519 + 20)) /\
   firstn (Z.to_nat bufferLen) (snd (fst r))
   = repeat x00 (Z.to_nat bufferLen)).
Proof.
  intros r. subst r. unfold crypto_fillAddress, crypto_encodePubkey.
  cbv zeta. change (uint8 20 =? 0) with false. cbv iota.
  change (uint8 20) with 20.
  destruct (Z.ltb_spec bufferLen (PK_LEN_25519 + SS58_ADDRESS_MAX_LEN)).
  - split; [reflexivity | lia].
  - split; [lia|]. intros _. split; [reflexivity|].
    cbn [fst snd]. apply MEMZERO_firstn.
Qed.

Lemma crypto_fillAddress_outcome_witness :
  crypto_fillAddress 32 60 zxerr_unknown (repeat xff 100) 100 0
  = (zxerr_ok, repeat x00 100, 52).
Proof.
  exact (proj1 (proj2 (crypto_fillAddress_outcome 32 60 zxerr_unknown
                         (repeat xff 100) 100 0) ltac:(lia))).
Defined.

(** X17.  A signing call succeeds exactly when its arguments pass the
    check and the derivation, the key set-up and the signing call all
    return [CX_OK], each fed with what the one before wrote; on success the
    caller's buffer holds what the signing call wrote, and the status is
    otherwise [zxerr_unknown] or [zxerr_invalid_crypto_settings]. *)
Theorem crypto_sign_success {Sdk : CxSdk} (hdPath : list Z)
    (stack sig msg : list byte) (signatureMaxlen messageLen : Z) :
  let out := crypto_sign hdPath stack (Some sig) signatureMaxlen (Some msg)
               messageLen in
  let derived :=
    os_derive_bip32_with_seed_no_throw hdPath (repeat x00 SK_LEN_25519) in
  let key :=
    cx_ecfp_init_private_key_no_throw (snd derived) SCALAR_LEN_ED25519
      stack in
  let signed :=
    cx_eddsa_sign_no_throw (snd key) msg messageLen sig signatureMaxlen in
  (sign_status out = zxerr_ok <->
   ED25519_SIGNATURE_SIZE <= signatureMaxlen /\ messageLen <> 0 /\
   fst derived = CX_OK /\ fst key = CX_OK /\ fst signed = CX_OK) /\
  (sign_status out = zxerr_ok ->
   sign_signature out = Some (snd signed)) /\
  (sign_status out = zxerr_ok \/ sign_status out = zxerr_unknown \/
   sign_status out = zxerr_invalid_crypto_settings).
Proof.
  intros out derived key signed. subst out. unfold crypto_sign.
  destruct (Z.ltb_spec signatureMaxlen ED25519_SIGNATURE_SIZE) as [Hs|Hs].
  { cbn. split_all; try (split; [discriminate | lia]); try discriminate;
      auto. }
  destruct (Z.eqb_spec messageLen 0) as [Hm|Hm].
  { cbn. split_all; try (split; [discriminate | tauto]); try discriminate;
      auto. }
  cbn [orb]. fold derived.
  destruct derived as [rc1 pkd] eqn:Ed. cbn [fst snd] in *.
  destruct (Z.eqb_spec rc1 CX_OK) as [E1|E1]; cbn [negb].
  2: { cbn. split_all; try (split; [discriminate | tauto]);
         try discriminate; auto. }
  fold key. destruct key as [rc2 k] eqn:Ek. cbn [fst snd] in *.
  destruct (Z.eqb_spec rc2 CX_OK) as [E2|E2]; cbn [negb].
  2: { cbn. split_all; try (split; [discriminate | tauto]);
         try discriminate; auto. }
  fold signed. destruct signed as [rc3 s] eqn:Es. cbn [fst snd] in *.
  destruct (Z.eqb_spec rc3 CX_OK) as [E3|E3]; cbn [negb].
  2: { cbn. split_all; try (split; [discriminate | tauto]);
         try discriminate; auto. }
  cbn. split_all; try tauto; auto.
Qed.

Lemma crypto_sign_success_witness :
  let out := @crypto_sign sdk_signs [] (repeat xff 40)
               (Some (repeat xff 64)) 64 (Some [x01]) 1 in
  sign_status out = zxerr_ok /\ sign_signature out = Some (repeat x55 64).
Proof.
  cbv zeta.
  destruct (@crypto_sign_success sdk_signs [] (repeat xff 40)
              (repeat xff 64) [x01] 64 1) as ([_ Hok] & Hsig & _).
  assert (Hst : sign_status
                  (@crypto_sign sdk_signs [] (repeat xff 40)
                     (Some (repeat xff 64)) 64 (Some [x01]) 1) = zxerr_ok).
  { apply Hok. cbn. repeat split; try lia; discriminate. }
  split; [exact Hst | exact (Hsig Hst)].
Defined.
